(** * playwright-search: a shallow embedding of the search pipeline

    The development follows the Python package [playwright_search]:
    - [types.py]            : [CommandOptions], [SearchResult], [SearchResponse];
    - [engines/base.py]     : [BaseEngine] (URL building, text cleaning,
                              generic humanisation);
    - [engines/google.py]   : [GoogleEngine] ([search], the reCAPTCHA probe,
                              the in-page extraction script);
    - [engines/factory.py]  : [ENGINE_MAP], [create_engine];
    - [browser_manager.py]  : [BrowserManager] (fingerprint, launch, close);
    - [main.py]             : the [main] coroutine of [cli].

    Python [str] values are lists of Unicode code points.  Calls into
    Playwright, the operating system, the clock and the random generator are
    steps of a state-and-exception monad: each call is appended to a trace and
    its outcome is read from a [World], an arbitrary deterministic
    environment that answers as a function of everything done so far. *)

From Stdlib Require Import ZArith NArith List String Ascii Lia Bool.
From stdpp Require Import base option list gmap.
Import ListNotations.

Local Open Scope Z_scope.

(* ===================================================================== *)
(** ** Python strings *)
(* ===================================================================== *)

Module PyStr.

(** A Python [str] is a sequence of Unicode code points. *)
Definition pystr : Type := list N.

(** An ASCII literal as a Python [str]. *)
Definition py (s : string) : pystr :=
  List.map N_of_ascii (list_ascii_of_string s).

(** Truthiness of a [str]: only the empty string is falsy. *)
Definition truthy (s : pystr) : bool :=
  match s with [] => false | _ :: _ => true end.

Fixpoint str_eqb (a b : pystr) : bool :=
  match a, b with
  | [], [] => true
  | x :: a', y :: b' => N.eqb x y && str_eqb a' b'
  | _, _ => false
  end.

(** [s.startswith(p)] *)
Fixpoint startswith (p s : pystr) : bool :=
  match p, s with
  | [], _ => true
  | _ :: _, [] => false
  | a :: p', b :: s' => N.eqb a b && startswith p' s'
  end.

(** [p in s] (JavaScript [s.includes(p)]) *)
Fixpoint contains (p s : pystr) : bool :=
  startswith p s ||
  match s with
  | [] => false
  | _ :: s' => contains p s'
  end.

(** The scan of [str.replace] for a non-empty [old]: [skip] counts the
    characters of a match that are still to be stepped over. *)
Fixpoint replace_from (old new : pystr) (skip : nat) (s : pystr) : pystr :=
  match s with
  | [] => []
  | c :: s' =>
      match skip with
      | S k => replace_from old new k s'
      | O =>
          if startswith old s
          then new ++ replace_from old new (Nat.pred (length old)) s'
          else c :: replace_from old new 0 s'
      end
  end.

(** [s.replace(old, new)]: every non-overlapping occurrence of [old], found
    from the left, is replaced.  With an empty [old], [new] is inserted
    before every character and at the end. *)
Definition str_replace (old new s : pystr) : pystr :=
  match old with
  | [] => new ++ flat_map (fun c => c :: new) s
  | _ :: _ => replace_from old new 0 s
  end.

(** [str.lower] on one code point.  Only the ASCII letters are mapped; the
    Unicode case table of the interpreter is not part of the package, and no
    code point outside ASCII lowers to a letter of a key of [ENGINE_MAP]. *)
Definition lower_char (c : N) : N :=
  if (65 <=? c)%N && (c <=? 90)%N then (c + 32)%N else c.

Definition str_lower (s : pystr) : pystr := List.map lower_char s.

(** [str.isspace] on one code point: the whitespace set of CPython, used by
    [str.split()] and [str.strip()] without argument. *)
Definition isspace (c : N) : bool :=
  ((9 <=? c) && (c <=? 13) ||
   (28 <=? c) && (c <=? 32) ||
   (c =? 133) || (c =? 160) || (c =? 5760) ||
   (8192 <=? c) && (c <=? 8202) ||
   (c =? 8232) || (c =? 8233) || (c =? 8239) || (c =? 8287) ||
   (c =? 12288))%N.

(** The whitespace set of ECMAScript, used by [String.prototype.trim]. *)
Definition js_isspace (c : N) : bool :=
  ((9 <=? c) && (c <=? 13) ||
   (c =? 32) || (c =? 160) || (c =? 5760) ||
   (8192 <=? c) && (c <=? 8202) ||
   (c =? 8232) || (c =? 8233) || (c =? 8239) || (c =? 8287) ||
   (c =? 12288) || (c =? 65279))%N.

Fixpoint dropwhile (f : N -> bool) (s : pystr) : pystr :=
  match s with
  | [] => []
  | c :: s' => if f c then dropwhile f s' else s
  end.

Definition strip_with (f : N -> bool) (s : pystr) : pystr :=
  rev (dropwhile f (rev (dropwhile f s))).

(** [s.strip()] *)
Definition str_strip : pystr -> pystr := strip_with isspace.

(** JavaScript [s.trim()] *)
Definition js_trim : pystr -> pystr := strip_with js_isspace.

(** [s.split()]: the maximal runs of non-whitespace characters.  [cur] is
    the run being read, in reverse. *)
Fixpoint split_from (cur : pystr) (s : pystr) : list pystr :=
  match s with
  | [] => match cur with [] => [] | _ :: _ => [rev cur] end
  | c :: s' =>
      if isspace c
      then match cur with
           | [] => split_from [] s'
           | _ :: _ => rev cur :: split_from [] s'
           end
      else split_from (c :: cur) s'
  end.

Definition str_split (s : pystr) : list pystr := split_from [] s.

(** [sep.join(l)] *)
Fixpoint str_join (sep : pystr) (l : list pystr) : pystr :=
  match l with
  | [] => []
  | [x] => x
  | x :: rest => x ++ sep ++ str_join sep rest
  end.

(** [s.rfind('/') + 1]: the length of the prefix ending at the last slash. *)
Fixpoint after_last_slash (s : pystr) : nat :=
  match s with
  | [] => O
  | c :: s' =>
      match after_last_slash s' with
      | O => if N.eqb c 47 then 1%nat else O
      | S k => S (S k)
      end
  end.

(** [os.path.dirname] of [posixpath]. *)
Definition dirname (p : pystr) : pystr :=
  let head := firstn (after_last_slash p) p in
  if truthy head && negb (forallb (N.eqb 47) head)
  then rev (dropwhile (N.eqb 47) (rev head))
  else head.

Definition SPACE : N := 32%N.
Definition PLUS : N := 43%N.
(** U+200B ZERO WIDTH SPACE *)
Definition ZWSP : N := 8203%N.

End PyStr.
Export PyStr.

(* ===================================================================== *)
(** ** types.py and the engine configuration *)
(* ===================================================================== *)

(** [class CommandOptions(BaseModel)] *)
Module CommandOptions.
Record t : Type := mk {
  limit : option Z;
  timeout : option Z;
  headless : option bool;
  state_file : option pystr;
  no_save_state : option bool;
  locale : option pystr;
  proxy : option pystr;
  engine : option pystr
}.
End CommandOptions.

(** [class SearchResult(BaseModel)] *)
Module SearchResult.
Record t : Type := mk {
  title : pystr;
  link : pystr;
  snippet : pystr
}.
End SearchResult.

(** [class SearchResponse(BaseModel)]; a clock reading is an integer here. *)
Module SearchResponse.
Record t : Type := mk {
  query : pystr;
  results : list SearchResult.t;
  total_results : nat;
  search_time : Z;
  engine : pystr
}.
End SearchResponse.

(** The dictionary built by [_get_host_machine_config], stored under the key
    ["fingerprint"] of the fingerprint file. *)
Module Fingerprint.
Record t : Type := mk {
  deviceName : pystr;
  locale : pystr;
  timezoneId : pystr;
  colorScheme : pystr;
  reducedMotion : pystr;
  forcedColors : pystr;
  userAgent : pystr
}.
End Fingerprint.

(** [class SearchEngineSelectors(TypedDict)] *)
Module SearchEngineSelectors.
Record t : Type := mk {
  result_container : pystr;
  title : pystr;
  link : pystr;
  snippet : pystr
}.
End SearchEngineSelectors.

(** [class CustomDelay(TypedDict)] *)
Module CustomDelay.
Record t : Type := mk { min : Z; max : Z }.
End CustomDelay.

(** [class SearchEngineConfig(TypedDict)]; an absent key is [None]. *)
Module SearchEngineConfig.
Record t : Type := mk {
  name : pystr;
  base_url : pystr;
  search_path : pystr;
  selectors : SearchEngineSelectors.t;
  headers : option (list (pystr * pystr));
  user_agent : option pystr;
  anti_bot : option bool;
  custom_delay : option CustomDelay.t
}.
End SearchEngineConfig.

(** [x or d] on an optional integer, string and flag. *)
Definition int_or (x : option Z) (d : Z) : Z :=
  match x with
  | Some v => if v =? 0 then d else v
  | None => d
  end.

Definition str_or (x : option pystr) (d : pystr) : pystr :=
  match x with
  | Some s => if truthy s then s else d
  | None => d
  end.

Definition flag_truthy (x : option bool) : bool :=
  match x with Some b => b | None => false end.

(* ===================================================================== *)
(** ** Exceptions, calls and the environment *)
(* ===================================================================== *)

(** The exception classes the package meets.  [BaseExceptionOnly] stands for
    the classes outside [Exception] (a cancellation, a keyboard interrupt). *)
Inductive exc_class : Type :=
  | Exception | TimeoutError | ValueError | AttributeError | KeyError
  | OSError | BaseExceptionOnly.

Inductive exn : Type := Exc (cls : exc_class) (msg : pystr).

(** [isinstance(e, Exception)], the test of every [except Exception]. *)
Definition isinstance_Exception (e : exn) : bool :=
  match e with
  | Exc BaseExceptionOnly _ => false
  | Exc _ _ => true
  end.

Inductive level : Type := INFO | WARNING | ERROR.

(** The [**context_options] of [browser.new_context]. *)
Module ContextOptions.
Record t : Type := mk {
  locale : pystr;
  timezone_id : pystr;
  color_scheme : pystr;
  reduced_motion : pystr;
  forced_colors : pystr;
  user_agent : pystr;
  device_applied : bool;
  storage_state : option pystr
}.
End ContextOptions.

(** One entry per [logger] call site of the package. *)
Inductive log_msg : Type :=
  | LogLaunching | LogCreatingContext | LogApplyingStealth | LogStealthApplied
  | LogContextCreated (fp : Fingerprint.t)
  | LogStateFileFound (p : pystr) | LogFingerprintLoaded
  | LogFingerprintUnreadable (e : exn) | LogNoStateFile
  | LogSavingState | LogStateSaved | LogSaveFailed (e : exn) | LogBrowserClosed
  | LogNavigating (name url : pystr) | LogResultWaitTimeout
  | LogSearchDone (q : pystr) (n : nat) (duration : Z)
  | LogSearchFailed (e : exn)
  | LogRecaptchaDetected | LogNoRecaptcha
  | LogParserStart | LogParserExtracted (n : nat) | LogParserEmpty
  | LogUsingEngine (engine : option pystr) (q : pystr)
  | LogErrorOccurred (e : exn).

(** The calls that leave the interpreter: Playwright, the file system, the
    clock, the random generator, the logger and standard output. *)
Inductive op : Type :=
  | Log (lvl : level) (m : log_msg)
  | PlaywrightStart
  | ChromiumLaunch (headless : bool) (args : list pystr)
  | PathExists (p : pystr)
  | JsonLoad (p : pystr)
  | DatetimeNow
  | RandomChoice (n : nat)
  | RandomRandint (a b : Z)
  | RandomUniform (a b : Z)
  | TimeTime
  | NewContext (o : ContextOptions.t)
  | StealthAsync
  | SetDefaultTimeout (ms : Z)
  | Makedirs (p : pystr)
  | StorageState (p : pystr)
  | JsonDump (p : pystr) (fp : Fingerprint.t)
  | BrowserClose
  | PlaywrightStop
  | NewPage
  | SetExtraHttpHeaders (hs : list (pystr * pystr))
  | Goto (url : pystr)
  | WaitForTimeout (ms : Z)
  | WaitForSelector (sel : pystr) (ms : Z)
  | WaitForLoadState (state : pystr) (ms : Z)
  | Screenshot (path : pystr) (full_page : bool)
  | ViewportSize
  | MouseMove
  | ScrollTo
  | EvaluateResults (limit : Z)
  | PageClose
  | Echo (r : SearchResponse.t).

(** What the in-page script reads of one [<a>] element: the [textContent]
    of its first [h3] descendant, its resolved [href], and, when [closest]
    finds a result container, the [innerText] of the first snippet node of
    that container. *)
Module Anchor.
Record t : Type := mk {
  h3 : option pystr;
  href : pystr;
  container : option (option pystr)
}.
End Anchor.

Inductive ElementHandle : Type := element_handle.
Inductive Playwright : Type := playwright_obj.
Inductive Browser : Type := browser_obj.
Inductive BrowserContext : Type := context_obj.

(** The environment of one run.  Every answer may depend on the calls made
    so far, so two calls of the same kind can be answered differently. *)
Record World : Type := {
  (** whether the call raises, and what *)
  w_raises : list op -> op -> option exn;
  (** [os.path.exists] *)
  w_path_exists : list op -> pystr -> bool;
  (** the value under ["fingerprint"] of the JSON object in a file *)
  w_json_load : list op -> pystr -> option Fingerprint.t;
  (** [os.environ.get("LANG")] *)
  w_environ_LANG : option pystr;
  (** [datetime.now().hour] *)
  w_now_hour : list op -> Z;
  (** the raw draw behind [random.choice] and [random.randint] *)
  w_random : list op -> nat;
  (** [time.time()] *)
  w_time : list op -> Z;
  (** [devices[name]['user_agent']] of the Playwright device table *)
  w_devices : pystr -> option pystr;
  (** what [page.wait_for_selector] returns when it does not raise *)
  w_selector : list op -> pystr -> option ElementHandle;
  (** [page.viewport_size] *)
  w_viewport_size : list op -> option (Z * Z);
  (** the [<a>] elements of the document, in document order *)
  w_document : list op -> list Anchor.t
}.

(** The run state: the calls made so far and the three mutable attributes
    of the [BrowserManager] instance. *)
Record State : Type := mkState {
  trace : list op;
  self_playwright : option Playwright;
  self_browser : option Browser;
  self_context : option BrowserContext
}.

Definition initial : State := mkState [] None None None.

Inductive result (A : Type) : Type :=
  | Ok (a : A)
  | Raise (e : exn).
Arguments Ok {A} a.
Arguments Raise {A} e.

(** A computation that may raise and that extends the trace. *)
Definition M (A : Type) : Type := State -> result A * State.

Definition ret {A} (a : A) : M A := fun st => (Ok a, st).

Definition raise {A} (e : exn) : M A := fun st => (Raise e, st).

Definition bind {A B} (m : M A) (k : A -> M B) : M B :=
  fun st =>
    match m st with
    | (Ok a, st') => k a st'
    | (Raise e, st') => (Raise e, st')
    end.

Notation "'let*' x ':=' m 'in' k" := (bind m (fun x => k))
  (at level 10, x name, m at level 100, k at level 200).
Notation "m '>>' k" := (bind m (fun _ => k))
  (at level 100, k at level 200, right associativity).

(** [try: body / except Exception as e: handler e] *)
Definition try_except {A} (body : M A) (handler : exn -> M A) : M A :=
  fun st =>
    match body st with
    | (Ok a, st') => (Ok a, st')
    | (Raise e, st') =>
        if isinstance_Exception e then handler e st' else (Raise e, st')
    end.

(** [try: body / finally: fin].  An exception of [fin] replaces the outcome
    of [body]. *)
Definition try_finally {A} (body : M A) (fin : M unit) : M A :=
  fun st =>
    match body st with
    | (r, st') =>
        match fin st' with
        | (Ok _, st'') => (r, st'')
        | (Raise e, st'') => (Raise e, st'')
        end
    end.

Definition record (o : op) (st : State) : State :=
  mkState (trace st ++ [o]) (self_playwright st) (self_browser st)
          (self_context st).

Definition when (b : bool) (m : M unit) : M unit :=
  if b then m else ret tt.

Section Environment.
Variable w : World.

(** A call that returns nothing of interest: it is recorded, and raises when
    the environment says so. *)
Definition call (o : op) : M unit :=
  fun st =>
    match w_raises w (trace st) o with
    | Some e => (Raise e, record o st)
    | None => (Ok tt, record o st)
    end.

(** A call whose answer [f] is read from the environment. *)
Definition ask {A} (o : op) (f : list op -> A) : M A :=
  fun st =>
    match w_raises w (trace st) o with
    | Some e => (Raise e, record o st)
    | None => (Ok (f (trace st)), record o st)
    end.

(** A call that cannot raise. *)
Definition read {A} (o : op) (f : list op -> A) : M A :=
  fun st => (Ok (f (trace st)), record o st).

Definition log (lvl : level) (m : log_msg) : M unit :=
  fun st => (Ok tt, record (Log lvl m) st).

(** [random.choice(l)] on a non-empty list. *)
Definition random_choice (l : list pystr) : M pystr :=
  read (RandomChoice (length l))
       (fun h => nth (w_random w h mod length l)%nat l []).

(** [random.randint(a, b)] *)
Definition random_randint (a b : Z) : M Z :=
  if b <? a
  then raise (Exc ValueError (py "empty range for randrange()"))
  else read (RandomRandint a b)
            (fun h => a + Z.of_nat (w_random w h) mod (b - a + 1)).

(** [random.uniform(a, b)]: the draw is recorded, its value is not kept. *)
Definition random_uniform (a b : Z) : M unit :=
  read (RandomUniform a b) (fun _ => tt).

End Environment.

(* ===================================================================== *)
(** ** engines/base.py *)
(* ===================================================================== *)

(** The classes that [ENGINE_MAP] can name. *)
Inductive engine_class : Type := GoogleEngineClass.

Module BaseEngine.

(** An instance: its class and the two attributes set by [__init__]. *)
Record t : Type := mk {
  cls : engine_class;
  config : SearchEngineConfig.t;
  options : CommandOptions.t
}.

(** [_build_search_url] *)
Definition _build_search_url (self : t) (query : pystr) : pystr :=
  let encoded_query := str_replace (py " ") (py "+") query in
  SearchEngineConfig.base_url (config self) ++
  SearchEngineConfig.search_path (config self) ++ encoded_query.

(** [_clean_text] *)
Definition _clean_text (text : option pystr) : pystr :=
  match text with
  | None => []
  | Some text =>
      if negb (truthy text) then []
      else str_strip (str_join (py " ") (str_split (str_replace [ZWSP] [] text)))
  end.

(** [_create_search_result] *)
Definition _create_search_result (title link snippet : pystr)
  : SearchResult.t :=
  SearchResult.mk (_clean_text (Some title)) (_clean_text (Some link))
                  (_clean_text (Some snippet)).

Section Methods.
Variable w : World.

(** [_get_random_delay] *)
Definition _get_random_delay (min_delay max_delay : Z) : M Z :=
  random_randint w min_delay max_delay.

(** [_navigate_to_search_page] *)
Definition _navigate_to_search_page (self : t) (query : pystr) : M unit :=
  let search_url := _build_search_url self query in
  log INFO (LogNavigating (SearchEngineConfig.name (config self)) search_url) >>
  call w (Goto search_url) >>
  match SearchEngineConfig.custom_delay (config self) with
  | Some d =>
      let* delay := _get_random_delay (CustomDelay.min d) (CustomDelay.max d) in
      call w (WaitForTimeout delay)
  | None => ret tt
  end.

(** [_setup_page_headers] *)
Definition _setup_page_headers (self : t) : M unit :=
  match SearchEngineConfig.headers (config self) with
  | Some (h :: hs) => call w (SetExtraHttpHeaders (h :: hs))
  | _ => ret tt
  end.

(** [_wait_for_page_load] *)
Definition _wait_for_page_load (self : t) : M unit :=
  try_except
    (call w (WaitForSelector
               (SearchEngineSelectors.result_container
                  (SearchEngineConfig.selectors (config self))) 15000))
    (fun _ =>
       log WARNING LogResultWaitTimeout >>
       call w (Screenshot (py "google-debug.png") false)).

(** [_handle_anti_bot] of the base class *)
Definition _handle_anti_bot (self : t) : M unit :=
  if negb (flag_truthy (SearchEngineConfig.anti_bot (config self)))
  then ret tt
  else
    let* viewport_size := read ViewportSize (w_viewport_size w) in
    match viewport_size with
    | Some (width, height) =>
        random_uniform 0 width >>
        random_uniform 0 height >>
        call w MouseMove
    | None => ret tt
    end >>
    random_uniform 0 100 >>
    call w ScrollTo >>
    let* delay := _get_random_delay 1000 3000 in
    call w (WaitForTimeout delay).

End Methods.
End BaseEngine.

(* ===================================================================== *)
(** ** engines/google.py *)
(* ===================================================================== *)

Module GoogleEngine.

Definition GOOGLE_CONFIG : SearchEngineConfig.t :=
  SearchEngineConfig.mk
    (py "Google")
    (py "https://www.google.com")
    (py "/search?q=")
    (SearchEngineSelectors.mk
       (py "div[data-sokoban-container]") (py "h3") (py "a")
       (py "div[data-sncf='1']"))
    (Some [(py "Accept-Language", py "zh-CN,zh;q=0.9,en;q=0.8")])
    None
    (Some true)
    (Some (CustomDelay.mk 1000 3000)).

(** [GoogleEngine(options)] *)
Definition init (options : CommandOptions.t) : BaseEngine.t :=
  BaseEngine.mk GoogleEngineClass GOOGLE_CONFIG options.

(** An object pushed by the in-page script. *)
Module Extracted.
Record t : Type := mk {
  title : pystr;
  link : pystr;
  snippet : pystr
}.
End Extracted.

(** The body of the [for] loop of [results_js] below its [break] test: what
    one link contributes. *)
Definition candidate (link : Anchor.t) : option Extracted.t :=
  match Anchor.h3 link with
  | Some textContent =>
      if truthy textContent then
        let href := Anchor.href link in
        let title := textContent in
        let snippet :=
          match Anchor.container link with
          | Some (Some innerText) => innerText
          | _ => []
          end in
        if truthy href && truthy title &&
           negb (startswith (py "javascript:") href) &&
           contains (py "http") href
        then Some (Extracted.mk (js_trim title) href (js_trim snippet))
        else None
      else None
  | None => None
  end.

(** The [for (const link of links)] loop of [results_js]. *)
Fixpoint results_js_loop (limit : Z) (links : list Anchor.t)
    (extractedResults : list Extracted.t) : list Extracted.t :=
  match links with
  | [] => extractedResults
  | link :: rest =>
      if Z.of_nat (length extractedResults) >=? limit then extractedResults
      else
        results_js_loop limit rest
          match candidate link with
          | Some r => extractedResults ++ [r]
          | None => extractedResults
          end
  end.

(** The script [results_js] applied to [limit]. *)
Definition results_js (limit : Z) (links : list Anchor.t)
  : list Extracted.t :=
  results_js_loop limit links [].

(** The selector [iframe[src*="recaptcha"]]; 34 is the double quote. *)
Definition RECAPTCHA_SELECTOR : pystr :=
  py "iframe[src*=" ++ [34%N] ++ py "recaptcha" ++ [34%N] ++ py "]".

(** The message of the exception raised on a reCAPTCHA frame. *)
Definition RECAPTCHA_MESSAGE : pystr :=
  [38656; 35201; 20154; 24037; 24178; 39044; 26469; 35299; 20915; 32;
   114; 101; 67; 65; 80; 84; 67; 72; 65; 12290]%N.

Section Methods.
Variable w : World.

(** [_handle_anti_bot] of [GoogleEngine] *)
Definition _handle_anti_bot (self : BaseEngine.t) : M unit :=
  try_except
    (let* recaptcha_frame :=
       ask w (WaitForSelector RECAPTCHA_SELECTOR 5000)
           (fun h => w_selector w h RECAPTCHA_SELECTOR) in
     match recaptcha_frame with
     | Some _ =>
         log WARNING LogRecaptchaDetected >>
         call w (Screenshot (py "google-recaptcha.png") true) >>
         raise (Exc Exception RECAPTCHA_MESSAGE)
     | None => ret tt
     end)
    (fun _ =>
       log INFO LogNoRecaptcha >>
       BaseEngine._handle_anti_bot w self).

(** [_parse_results] *)
Definition _parse_results (self : BaseEngine.t) : M (list SearchResult.t) :=
  log INFO LogParserStart >>
  call w (WaitForLoadState (py "domcontentloaded") 15000) >>
  let limit := int_or (CommandOptions.limit (BaseEngine.options self)) 10 in
  let* extracted_data :=
    ask w (EvaluateResults limit) (fun h => results_js limit (w_document w h)) in
  log INFO (LogParserExtracted (length extracted_data)) >>
  match extracted_data with
  | [] =>
      log WARNING LogParserEmpty >>
      call w (Screenshot (py "google-screenshot.png") true)
  | _ :: _ => ret tt
  end >>
  ret (List.map
         (fun item =>
            BaseEngine._create_search_result
              (Extracted.title item) (Extracted.link item)
              (Extracted.snippet item))
         extracted_data).

(** [search] *)
Definition search (self : BaseEngine.t) (context : BrowserContext)
    (query : pystr) : M SearchResponse.t :=
  let* start_time := read TimeTime (w_time w) in
  call w NewPage >>
  try_finally
    (try_except
       (BaseEngine._setup_page_headers w self >>
        BaseEngine._navigate_to_search_page w self query >>
        _handle_anti_bot self >>
        let* results := _parse_results self in
        let* end_time := read TimeTime (w_time w) in
        let duration := (end_time - start_time) * 1000 in
        log INFO (LogSearchDone query (length results) duration) >>
        ret (SearchResponse.mk query results (length results) duration
               (SearchEngineConfig.name (BaseEngine.config self))))
       (fun e =>
          log ERROR (LogSearchFailed e) >>
          call w (Screenshot (py "google-error-screenshot.png") true) >>
          raise e))
    (call w PageClose).

End Methods.
End GoogleEngine.

(* ===================================================================== *)
(** ** engines/factory.py *)
(* ===================================================================== *)

(** [ENGINE_MAP] *)
Definition ENGINE_MAP : gmap pystr engine_class :=
  {[ py "google" := GoogleEngineClass ]}.

(** [engine_class(options)] *)
Definition instantiate (c : engine_class) (options : CommandOptions.t)
  : BaseEngine.t :=
  match c with
  | GoogleEngineClass => GoogleEngine.init options
  end.

(** The text before the engine name in the message of [create_engine]. *)
Definition UNSUPPORTED_ENGINE : pystr :=
  [19981; 25903; 25345; 30340; 25628; 32034; 24341; 25806; 58; 32]%N.

(** [create_engine] *)
Definition create_engine (engine_name : pystr) (options : CommandOptions.t)
  : result BaseEngine.t :=
  match ENGINE_MAP !! str_lower engine_name with
  | None => Raise (Exc ValueError (UNSUPPORTED_ENGINE ++ engine_name))
  | Some engine_class => Ok (instantiate engine_class options)
  end.

(** [get_supported_engines] *)
Definition get_supported_engines : list pystr :=
  List.map fst (map_to_list ENGINE_MAP).

(* ===================================================================== *)
(** ** browser_manager.py *)
(* ===================================================================== *)

Module BrowserManager.

(** The attributes that [__init__] computes and nothing changes afterwards;
    [playwright], [browser] and [context] live in the [State]. *)
Record t : Type := mk {
  options : CommandOptions.t;
  state_file : pystr;
  fingerprint_file : pystr
}.

(** [__init__] *)
Definition init (options : CommandOptions.t) : t :=
  let state_file :=
    str_or (CommandOptions.state_file options) (py "./browser-state.json") in
  mk options state_file
     (str_replace (py ".json") (py "-fingerprint.json") state_file).

(** [color_scheme = "dark" if hour >= 18 or hour <= 6 else "light"] *)
Definition color_scheme (hour : Z) : pystr :=
  if (hour >=? 18) || (hour <=? 6) then py "dark" else py "light".

Definition device_list : list pystr :=
  [py "Desktop Chrome"; py "Desktop Edge"; py "Desktop Firefox"].

Definition timezone_list : list pystr :=
  [py "America/New_York"; py "Europe/London"; py "Asia/Shanghai"].

Definition browser_args : list pystr :=
  [py "--no-sandbox"; py "--disable-setuid-sandbox";
   py "--disable-dev-shm-usage"; py "--disable-accelerated-2d-canvas";
   py "--no-first-run"; py "--no-zygote"; py "--disable-gpu"].

Definition set_playwright : M unit :=
  fun st => (Ok tt, mkState (trace st) (Some playwright_obj)
                            (self_browser st) (self_context st)).

Definition set_browser : M unit :=
  fun st => (Ok tt, mkState (trace st) (self_playwright st)
                            (Some browser_obj) (self_context st)).

Definition set_context : M unit :=
  fun st => (Ok tt, mkState (trace st) (self_playwright st)
                            (self_browser st) (Some context_obj)).

Definition get {A} (f : State -> A) : M A := fun st => (Ok (f st), st).

Definition is_set {A} (x : option A) : bool :=
  match x with Some _ => true | None => false end.

Section Methods.
Variable w : World.

(** [_load_saved_state]; the second component is
    [saved_state.get("fingerprint")]. *)
Definition _load_saved_state (self : t)
  : M (option pystr * option Fingerprint.t) :=
  let* state_exists :=
    read (PathExists (state_file self))
         (fun h => w_path_exists w h (state_file self)) in
  if state_exists then
    log INFO (LogStateFileFound (state_file self)) >>
    let storage_state := Some (state_file self) in
    let* fingerprint_exists :=
      read (PathExists (fingerprint_file self))
           (fun h => w_path_exists w h (fingerprint_file self)) in
    if fingerprint_exists then
      try_except
        (let* saved_state :=
           ask w (JsonLoad (fingerprint_file self))
               (fun h => w_json_load w h (fingerprint_file self)) in
         log INFO LogFingerprintLoaded >>
         ret (storage_state, saved_state))
        (fun e =>
           log WARNING (LogFingerprintUnreadable e) >>
           ret (storage_state, None))
    else ret (storage_state, None)
  else
    log INFO LogNoStateFile >>
    ret (None, None).

(** [_get_host_machine_config] *)
Definition _get_host_machine_config (self : t) : M Fingerprint.t :=
  let system_locale :=
    str_or (CommandOptions.locale (options self))
           (match w_environ_LANG w with Some l => l | None => py "zh-CN" end) in
  let* hour := read DatetimeNow (w_now_hour w) in
  let color_scheme := color_scheme hour in
  let* device_name := random_choice w device_list in
  match w_devices w device_name with
  | None => raise (Exc KeyError device_name)
  | Some user_agent =>
      let* timezone := random_choice w timezone_list in
      ret (Fingerprint.mk device_name system_locale timezone color_scheme
             (py "no-preference") (py "none") user_agent)
  end.

(** [launch_browser] *)
Definition launch_browser (self : t) : M BrowserContext :=
  log INFO LogLaunching >>
  call w PlaywrightStart >>
  set_playwright >>
  call w (ChromiumLaunch
            (match CommandOptions.headless (options self) with
             | Some b => b
             | None => true
             end)
            browser_args) >>
  set_browser >>
  log INFO LogCreatingContext >>
  let* loaded := _load_saved_state self in
  let storage_state := fst loaded in
  let* fingerprint :=
    match snd loaded with
    | Some fp => ret fp
    | None => _get_host_machine_config self
    end in
  let device :=
    if truthy (Fingerprint.deviceName fingerprint)
    then w_devices w (Fingerprint.deviceName fingerprint)
    else None in
  let context_options :=
    ContextOptions.mk
      (Fingerprint.locale fingerprint)
      (Fingerprint.timezoneId fingerprint)
      (Fingerprint.colorScheme fingerprint)
      (Fingerprint.reducedMotion fingerprint)
      (Fingerprint.forcedColors fingerprint)
      (match device with
       | Some user_agent => user_agent
       | None => Fingerprint.userAgent fingerprint
       end)
      (is_set device)
      storage_state in
  call w (NewContext context_options) >>
  set_context >>
  log INFO LogApplyingStealth >>
  call w StealthAsync >>
  log INFO LogStealthApplied >>
  call w (SetDefaultTimeout
            (int_or (CommandOptions.timeout (options self)) 60000)) >>
  log INFO (LogContextCreated fingerprint) >>
  ret context_obj.

(** [close] *)
Definition close (self : t) : M unit :=
  let* context := get self_context in
  when (is_set context &&
        negb (flag_truthy (CommandOptions.no_save_state (options self))))
    (log INFO LogSavingState >>
     try_except
       (let state_dir := dirname (state_file self) in
        let* dir_exists :=
          read (PathExists state_dir)
               (fun h => w_path_exists w h state_dir) in
        when (negb dir_exists) (call w (Makedirs state_dir)) >>
        call w (StorageState (state_file self)) >>
        let* fingerprint := _get_host_machine_config self in
        call w (JsonDump (fingerprint_file self) fingerprint) >>
        log INFO LogStateSaved)
       (fun e => log WARNING (LogSaveFailed e))) >>
  let* browser := get self_browser in
  when (is_set browser) (call w BrowserClose >> log INFO LogBrowserClosed) >>
  let* playwright := get self_playwright in
  when (is_set playwright) (call w PlaywrightStop).

End Methods.
End BrowserManager.

(* ===================================================================== *)
(** ** main.py *)
(* ===================================================================== *)

Section Main.
Variable w : World.

(** [search_engine.search(context, query)]: dispatch on the class. *)
Definition engine_search (self : BaseEngine.t) (context : BrowserContext)
    (query : pystr) : M SearchResponse.t :=
  match BaseEngine.cls self with
  | GoogleEngineClass => GoogleEngine.search w self context query
  end.

(** [create_engine(options.engine, options)]; [None.lower()] is an
    [AttributeError]. *)
Definition create_engine_call (options : CommandOptions.t) : M BaseEngine.t :=
  match CommandOptions.engine options with
  | None =>
      raise (Exc AttributeError
               (py "'NoneType' object has no attribute 'lower'"))
  | Some engine_name =>
      match create_engine engine_name options with
      | Ok e => ret e
      | Raise e => raise e
      end
  end.

(** The coroutine [main] of [cli], from the options that [click] hands
    over.  Neither the first [logger.info] nor [BrowserManager(options)]
    can raise, so [browser_manager] is set whenever [finally] runs. *)
Definition main (options : CommandOptions.t) (query : pystr) : M unit :=
  let browser_manager := BrowserManager.init options in
  try_finally
    (try_except
       (log INFO (LogUsingEngine (CommandOptions.engine options) query) >>
        let* context := BrowserManager.launch_browser w browser_manager in
        let* search_engine := create_engine_call options in
        let* results := engine_search search_engine context query in
        call w (Echo results))
       (fun e => log ERROR (LogErrorOccurred e)))
    (BrowserManager.close w browser_manager).

End Main.

(* ===================================================================== *)
(** ** Sample environments *)
(* ===================================================================== *)

Module Sample.

(** A device table with the three desktop presets. *)
Definition devices (name : pystr) : option pystr :=
  if str_eqb name (py "Desktop Chrome") then Some (py "Mozilla/5.0 Chrome")
  else if str_eqb name (py "Desktop Edge") then Some (py "Mozilla/5.0 Edg")
  else if str_eqb name (py "Desktop Firefox") then Some (py "Mozilla/5.0 Firefox")
  else None.

(** An environment whose answers do not depend on the history, except the
    random draw, which is the number of calls made so far. *)
Definition world (raises : op -> option exn) (exists_ : pystr -> bool)
    (saved : option Fingerprint.t) (hour : Z)
    (frame : option ElementHandle) (document : list Anchor.t) : World :=
  {| w_raises := fun _ o => raises o;
     w_path_exists := fun _ p => exists_ p;
     w_json_load := fun _ _ => saved;
     w_environ_LANG := Some (py "en_US.UTF-8");
     w_now_hour := fun _ => hour;
     w_random := fun h => length h;
     w_time := fun h => Z.of_nat (length h);
     w_devices := devices;
     w_selector := fun _ _ => frame;
     w_viewport_size := fun _ => Some (1280, 720);
     w_document := fun _ => document |}.

Definition never (_ : op) : option exn := None.

Definition options (limit : option Z) (engine : pystr) : CommandOptions.t :=
  CommandOptions.mk limit (Some 60000) (Some true)
    (Some (py "./browser-state.json")) (Some false) None None (Some engine).

(** A result link whose heading and snippet carry stray whitespace and a
    zero-width space. *)
Definition hit (n : N) : Anchor.t :=
  Anchor.mk (Some (py " Title " ++ [ZWSP; (48 + n)%N]))
            (py "https://example.org/" ++ [(48 + n)%N])
            (Some (Some (py "  some   text" ++ [ZWSP; 10%N]))).

(** Three result links, a link without heading and a script link. *)
Definition page : list Anchor.t :=
  [hit 1; Anchor.mk None (py "https://example.org/nav") None;
   Anchor.mk (Some (py "Menu")) (py "javascript:void(0)") None;
   hit 2; hit 3].

(** The probe for the reCAPTCHA frame times out. *)
Definition probe_times_out (o : op) : option exn :=
  match o with
  | WaitForSelector _ 5000 => Some (Exc TimeoutError (py "Timeout 5000ms exceeded."))
  | _ => None
  end.

(** The result container never appears, and neither does a reCAPTCHA
    frame: every [wait_for_selector] times out. *)
Definition selectors_time_out (o : op) : option exn :=
  match o with
  | WaitForSelector _ _ => Some (Exc TimeoutError (py "Timeout exceeded."))
  | _ => None
  end.

(** Navigation fails (and no reCAPTCHA frame would appear). *)
Definition goto_fails (o : op) : option exn :=
  match o with
  | Goto _ => Some (Exc TimeoutError (py "Timeout 60000ms exceeded."))
  | WaitForSelector _ 5000 => Some (Exc TimeoutError (py "Timeout 5000ms exceeded."))
  | _ => None
  end.

Definition no_file (_ : pystr) : bool := false.
Definition every_file (_ : pystr) : bool := true.



(** The state of an instance whose browser and context are open. *)
Definition launched : State :=
  mkState [] (Some playwright_obj) (Some browser_obj) (Some context_obj).

(** The states of a run in which navigation fails: after the launch,
    after the failed search, and after the error is logged and [close] has
    run. *)
Definition failing_error : exn :=
  Exc TimeoutError (py "Timeout 60000ms exceeded.").

Definition failing_world : World :=
  world goto_fails no_file None 20 None page.

Definition after_launch : State :=
  Eval vm_compute in
    snd (BrowserManager.launch_browser failing_world
           (BrowserManager.init (options (Some 2) (py "google")))
           (record (Log INFO (LogUsingEngine (Some (py "google"))
                                (py "openai gpt"))) initial)).

Definition after_search : State :=
  Eval vm_compute in
    snd (engine_search failing_world
           (GoogleEngine.init (options (Some 2) (py "google")))
           context_obj (py "openai gpt") after_launch).





(** The response of a run that returned one; an empty response otherwise. *)
Definition response_of (run : result SearchResponse.t * State)
  : SearchResponse.t :=
  match fst run with
  | Ok response => response
  | Raise _ => SearchResponse.mk [] [] 0 0 []
  end.






End Sample.

(* ===================================================================== *)
(** ** Properties stated about the package *)
(* ===================================================================== *)

(** A normalised field: no zero-width space, no whitespace at either end,
    no whitespace but the space character, and no two whitespace
    characters in a row. *)
Definition normalized (s : pystr) : Prop :=
  ~ In ZWSP s /\
  (forall c t, s = c :: t -> isspace c = false) /\
  (forall c t, s = t ++ [c] -> isspace c = false) /\
  (forall c, In c s -> isspace c = true -> c = SPACE) /\
  (forall t c1 c2 u, s = t ++ c1 :: c2 :: u ->
     isspace c1 = true -> isspace c2 = false).




(** A word of [str.split()] once the zero-width spaces are gone. *)
Definition word (x : pystr) : Prop :=
  x <> [] /\ Forall (fun c => isspace c = false /\ c <> ZWSP) x.

(** No whitespace character follows a whitespace character; [prev] tells
    whether the character before [s] is one. *)
Fixpoint no_ws_pair (prev : bool) (s : pystr) : bool :=
  match s with
  | [] => true
  | c :: t => negb (prev && isspace c) && no_ws_pair (isspace c) t
  end.

(** The three handles of the [BrowserManager] instance are untouched. *)
Definition same_handles (st st' : State) : Prop :=
  self_playwright st' = self_playwright st /\
  self_browser st' = self_browser st /\
  self_context st' = self_context st.

(** Every call of [evs], made after the history [h], satisfies [P]; [P]
    sees the history at which the call is made. *)
Fixpoint all_from (P : list op -> op -> Prop) (h evs : list op) : Prop :=
  match evs with
  | [] => True
  | o :: rest => P h o /\ all_from P (h ++ [o]) rest
  end.

(** Started in [st], the computation [m] only appends calls that satisfy
    [P] to the trace and leaves the handles alone, whatever the environment
    answers and however [m] ends. *)
Definition emits {A} (P : list op -> op -> Prop) (m : M A) (st : State)
  : Prop :=
  forall r st', m st = (r, st') ->
    exists evs,
      trace st' = trace st ++ evs /\ all_from P (trace st) evs /\
      same_handles st st'.

(** Every value that [m] returns satisfies [Q]. *)
Definition returns {A} (Q : A -> Prop) (m : M A) : Prop :=
  forall st a st', m st = (Ok a, st') -> Q a.

(** The calls that belong to the bounded wait for the result container:
    the wait itself, its warning and its snapshot. *)
Definition result_wait_step (self : BaseEngine.t) (o : op) : bool :=
  match o with
  | WaitForSelector sel ms =>
      (ms =? 15000) &&
      str_eqb sel (SearchEngineSelectors.result_container
                     (SearchEngineConfig.selectors (BaseEngine.config self)))
  | Screenshot path _ => str_eqb path (py "google-debug.png")
  | Log _ LogResultWaitTimeout => true
  | _ => false
  end.

(** The call [o] is none of those, at whatever history it is made. *)
Definition no_result_wait (self : BaseEngine.t) (_ : list op) (o : op)
  : Prop :=
  result_wait_step self o = false.



(** No condition on the calls. *)
Definition any_call (_ : list op) (_ : op) : Prop := True.

(** The characters of a text that count: neither whitespace nor the
    zero-width space. *)
Definition content (s : pystr) : pystr :=
  List.filter (fun c => negb (isspace c) && negb (N.eqb c ZWSP)) s.

(** The objects that the links of a document contribute to the script, in
    document order. *)
Definition candidates (links : list Anchor.t) : list GoogleEngine.Extracted.t :=
  flat_map
    (fun link =>
       match GoogleEngine.candidate link with
       | Some r => [r]
       | None => []
       end)
    links.

(** The calls that start, configure or close the browser, that read or
    write the identity files, or that print the response. *)
Definition lifecycle_step (o : op) : bool :=
  match o with
  | PlaywrightStart | ChromiumLaunch _ _ | NewContext _ | StealthAsync
  | SetDefaultTimeout _ | PathExists _ | JsonLoad _ | Makedirs _
  | StorageState _ | JsonDump _ _ | BrowserClose | PlaywrightStop
  | Echo _ => true
  | _ => false
  end.

Definition no_lifecycle_step (_ : list op) (o : op) : Prop :=
  lifecycle_step o = false.

(** The waits of the reference provider and their bounds. *)
Definition bounded_wait (_ : list op) (o : op) : Prop :=
  match o with
  | WaitForTimeout ms => 1000 <= ms <= 3000
  | WaitForSelector _ ms => ms = 5000
  | WaitForLoadState _ ms => ms = 15000
  | _ => True
  end.

(** [o] takes a snapshot. *)
Definition is_screenshot (o : op) : bool :=
  match o with Screenshot _ _ => true | _ => false end.

(** The calls of the persistence step of [close]. *)
Definition persistence_step (o : op) : bool :=
  match o with
  | PathExists _ | Makedirs _ | StorageState _ | JsonDump _ _
  | DatetimeNow | RandomChoice _ => true
  | _ => false
  end.

Definition no_persistence_step (_ : list op) (o : op) : Prop :=
  persistence_step o = false.


(** Started in [st], the computation [m] raises nothing but errors that
    satisfy [P]. *)
Definition throws {A} (P : exn -> Prop) (m : M A) (st : State) : Prop :=
  forall e st', m st = (Raise e, st') -> P e.

(** Every error that the environment raises is an [Exception]. *)
Definition only_exceptions (w : World) : Prop :=
  forall h o e, w_raises w h o = Some e -> isinstance_Exception e = true.

(* ===================================================================== *)
(** ** Facts about Python strings *)
(* ===================================================================== *)

Section StrFacts.


Lemma startswith_nil_r (p : pystr) : startswith p [] = true -> p = [].
Proof. destruct p; [reflexivity | discriminate]. Qed.










(** Replacing a one-character string by another is a character map. *)
Lemma str_replace_char (a b : N) (s : pystr) :
  str_replace [a] [b] s = List.map (fun c => if N.eqb c a then b else c) s.
Proof.
  unfold str_replace.
  induction s as [|c s IH]; [reflexivity|].
  cbn [replace_from startswith length Nat.pred List.map].
  rewrite andb_true_r, (N.eqb_sym a c).
  destruct (N.eqb c a); cbn; now rewrite IH.
Qed.

(** Replacing a one-character string by the empty string deletes it. *)
Lemma str_replace_delete (a : N) (s : pystr) :
  str_replace [a] [] s = List.filter (fun c => negb (N.eqb c a)) s.
Proof.
  unfold str_replace.
  induction s as [|c s IH]; [reflexivity|].
  cbn [replace_from startswith length Nat.pred List.filter].
  rewrite andb_true_r, (N.eqb_sym a c).
  destruct (N.eqb c a); cbn; now rewrite IH.
Qed.

End StrFacts.

(* ===================================================================== *)
(** ** Facts about [_clean_text] *)
(* ===================================================================== *)

Section CleanFacts.

Lemma word_rev (cur : pystr) :
  cur <> [] ->
  Forall (fun c => isspace c = false /\ c <> ZWSP) cur ->
  word (rev cur).
Proof.
  intros Hne Hcur. split.
  - intros E. apply (f_equal (@rev N)) in E. rewrite rev_involutive in E.
    now apply Hne.
  - now apply Forall_rev.
Qed.

Lemma split_from_words (s cur : pystr) :
  Forall (fun c => isspace c = false /\ c <> ZWSP) cur ->
  Forall (fun c => c <> ZWSP) s ->
  Forall word (split_from cur s).
Proof.
  revert cur; induction s as [|c s IH]; intros cur Hcur Hs; cbn [split_from].
  - destruct cur as [|a cur]; constructor; [|constructor].
    now apply word_rev.
  - inversion Hs as [|? ? Hc Hs']; subst.
    destruct (isspace c) eqn:Ec.
    + destruct cur as [|a cur].
      * apply IH; [constructor | assumption].
      * constructor; [now apply word_rev|].
        apply IH; [constructor | assumption].
    + apply IH; [|assumption]. now constructor.
Qed.

Lemma delete_zwsp (s : pystr) :
  Forall (fun c => c <> ZWSP) (str_replace [ZWSP] [] s).
Proof.
  rewrite str_replace_delete. apply List.Forall_forall. intros c Hc.
  apply filter_In in Hc as [_ Hc]. apply negb_true_iff, N.eqb_neq in Hc.
  exact Hc.
Qed.

Lemma in_str_join (sep : pystr) (ws : list pystr) (c : N) :
  In c (str_join sep ws) -> In c sep \/ exists x, In x ws /\ In c x.
Proof.
  induction ws as [|x ws IH]; cbn [str_join]; [intros []|].
  destruct ws as [|y ws].
  - intros H. right. exists x. split; [now left | assumption].
  - intros H. apply in_app_or in H as [H|H].
    + right. exists x. split; [now left | assumption].
    + apply in_app_or in H as [H|H]; [now left|].
      destruct (IH H) as [H'|(z & Hz & Hc)]; [now left|].
      right. exists z. split; [now right | assumption].
Qed.

Lemma str_join_nonempty (sep : pystr) (x : pystr) (ws : list pystr) :
  x <> [] -> str_join sep (x :: ws) <> [].
Proof.
  intros Hx. cbn [str_join]. destruct ws; [assumption|].
  intros E. apply app_eq_nil in E as [E _]. now apply Hx.
Qed.

Lemma str_join_head (ws : list pystr) (c : N) (t : pystr) :
  Forall word ws -> str_join [SPACE] ws = c :: t -> isspace c = false.
Proof.
  intros Hws. destruct ws as [|x ws]; [discriminate|].
  inversion Hws as [|? ? [Hne Hx] _]; subst.
  destruct x as [|a x]; [congruence|].
  inversion Hx as [|? ? [Ha _] _]; subst.
  cbn [str_join]. destruct ws; cbn [app]; intros E; injection E as <- _;
    exact Ha.
Qed.

Lemma str_join_last (ws : list pystr) (c : N) (t : pystr) :
  Forall word ws -> str_join [SPACE] ws = t ++ [c] -> isspace c = false.
Proof.
  revert t; induction ws as [|x ws IH]; intros t Hws E.
  - cbn in E. now apply app_cons_not_nil in E.
  - inversion Hws as [|? ? [Hne Hx] Hws']; subst.
    destruct ws as [|y ws].
    + cbn [str_join] in E. subst x.
      rewrite List.Forall_forall in Hx.
      apply (Hx c). apply in_or_app. right. now left.
    + inversion Hws' as [|? ? [Hy _] _]; subst.
      pose proof (str_join_nonempty [SPACE] y ws Hy) as Hj.
      destruct (exists_last Hj) as (t' & c' & Ej).
      change (str_join [SPACE] (x :: y :: ws))
        with (x ++ [SPACE] ++ str_join [SPACE] (y :: ws)) in E.
      rewrite Ej, !app_assoc in E.
      apply app_inj_tail in E as [_ <-].
      now apply (IH t').
Qed.

Lemma no_ws_pair_word (b : bool) (x r : pystr) :
  x <> [] -> Forall (fun c => isspace c = false /\ c <> ZWSP) x ->
  no_ws_pair b (x ++ r) = no_ws_pair false r.
Proof.
  intros Hne Hx. revert b. induction x as [|a x IH]; intros b; [congruence|].
  inversion Hx as [|? ? [Ha _] Hx']; subst.
  cbn [app no_ws_pair]. rewrite Ha, andb_false_r. cbn [negb andb].
  destruct x as [|a' x]; [reflexivity|].
  apply IH; [discriminate | assumption].
Qed.

Lemma str_join_no_ws_pair (ws : list pystr) (b : bool) :
  Forall word ws -> no_ws_pair b (str_join [SPACE] ws) = true.
Proof.
  revert b; induction ws as [|x ws IH]; intros b Hws; [reflexivity|].
  inversion Hws as [|? ? [Hne Hx] Hws']; subst.
  destruct ws as [|y ws].
  - cbn [str_join]. rewrite <- (app_nil_r x).
    now rewrite no_ws_pair_word.
  - change (str_join [SPACE] (x :: y :: ws))
      with (x ++ SPACE :: str_join [SPACE] (y :: ws)).
    rewrite no_ws_pair_word by assumption.
    cbn [no_ws_pair andb negb]. now apply IH.
Qed.

Lemma no_ws_pair_adjacent (s t : pystr) (c1 c2 : N) (u : pystr) (b : bool) :
  no_ws_pair b s = true -> s = t ++ c1 :: c2 :: u ->
  isspace c1 = true -> isspace c2 = false.
Proof.
  revert b s; induction t as [|a t IH]; intros b s H -> H1.
  - cbn [app no_ws_pair] in H. rewrite H1 in H.
    apply andb_true_iff in H as [_ H]. apply andb_true_iff in H as [H _].
    now apply negb_true_iff in H.
  - cbn [app no_ws_pair] in H. apply andb_true_iff in H as [_ H].
    now apply (IH _ _ H).
Qed.

Lemma str_join_normalized (ws : list pystr) :
  Forall word ws -> normalized (str_join [SPACE] ws).
Proof.
  intros Hws. rewrite List.Forall_forall in Hws.
  assert (Hws' : Forall word ws) by now apply List.Forall_forall.
  repeat split.
  - intros H. apply in_str_join in H as [[H|[]]|(x & Hx & Hc)];
      [discriminate|].
    destruct (Hws x Hx) as [_ Hall]. rewrite List.Forall_forall in Hall.
    now destruct (Hall _ Hc).
  - intros c t. now apply str_join_head.
  - intros c t. now apply str_join_last.
  - intros c H Hc. apply in_str_join in H as [[H|[]]|(x & Hx & Hin)];
      [now symmetry|].
    destruct (Hws x Hx) as [_ Hall]. rewrite List.Forall_forall in Hall.
    destruct (Hall _ Hin) as [Hns _]. congruence.
  - intros t c1 c2 u. apply no_ws_pair_adjacent with (b := false).
    now apply str_join_no_ws_pair.
Qed.

(** [strip] leaves a string alone that has no whitespace at either end. *)
Lemma str_strip_fixed (s : pystr) :
  (forall c t, s = c :: t -> isspace c = false) ->
  (forall c t, s = t ++ [c] -> isspace c = false) ->
  str_strip s = s.
Proof.
  intros Hhead Hlast. unfold str_strip, strip_with.
  assert (E1 : dropwhile isspace s = s).
  { destruct s as [|c t]; [reflexivity|]. cbn [dropwhile].
    now rewrite (Hhead c t eq_refl). }
  rewrite E1.
  assert (E2 : dropwhile isspace (rev s) = rev s).
  { destruct (rev s) as [|c t] eqn:Er; [reflexivity|]. cbn [dropwhile].
    rewrite (Hlast c (rev t)); [reflexivity|].
    rewrite <- (rev_involutive s), Er. reflexivity. }
  rewrite E2. apply rev_involutive.
Qed.

Lemma nil_normalized : normalized [].
Proof.
  repeat split.
  - intros [].
  - discriminate.
  - intros c t E. now apply app_cons_not_nil in E.
  - intros c [].
  - intros t c1 c2 u E. now apply app_cons_not_nil in E.
Qed.

(** What [_clean_text] returns is normalised, for every argument. *)
Lemma clean_text_normalized (text : option pystr) :
  normalized (BaseEngine._clean_text text).
Proof.
  destruct text as [text|]; [|apply nil_normalized].
  unfold BaseEngine._clean_text.
  destruct (truthy text); cbn [negb]; [|apply nil_normalized].
  change (py " ") with [SPACE].
  assert (Hws : Forall word (str_split (str_replace [ZWSP] [] text))).
  { apply split_from_words; [constructor | apply delete_zwsp]. }
  pose proof (str_join_normalized _ Hws) as Hn.
  rewrite str_strip_fixed; [exact Hn | apply Hn | apply Hn].
Qed.

End CleanFacts.

(* ===================================================================== *)
(** ** Reasoning about runs *)
(* ===================================================================== *)

Section RunFacts.

Lemma all_from_app (P : list op -> op -> Prop) (h e1 e2 : list op) :
  all_from P h (e1 ++ e2) <-> all_from P h e1 /\ all_from P (h ++ e1) e2.
Proof.
  revert h; induction e1 as [|o e1 IH]; intros h; cbn [app all_from].
  - rewrite app_nil_r. tauto.
  - rewrite IH, <- app_assoc. cbn [app]. tauto.
Qed.

Lemma all_from_weaken (P Q : list op -> op -> Prop) (h evs : list op) :
  (forall h' o, P h' o -> Q h' o) -> all_from P h evs -> all_from Q h evs.
Proof.
  intros HPQ. revert h; induction evs as [|o evs IH]; intros h; cbn;
    [trivial|].
  intros [H1 H2]. split; [now apply HPQ | now apply IH].
Qed.


Lemma same_handles_trans (a b c : State) :
  same_handles a b -> same_handles b c -> same_handles a c.
Proof.
  intros (H1 & H2 & H3) (H4 & H5 & H6). repeat split; congruence.
Qed.

Lemma same_handles_record (o : op) (st : State) :
  same_handles st (record o st).
Proof. now repeat split. Qed.

Context {A : Type} (P : list op -> op -> Prop).

Lemma emits_nothing (m : M A) (st : State) :
  (forall r st', m st = (r, st') -> st' = st) -> emits P m st.
Proof.
  intros H r st' E. apply H in E as ->. exists [].
  rewrite app_nil_r. repeat split.
Qed.

Lemma emits_one (m : M A) (o : op) (st : State) :
  (forall r st', m st = (r, st') -> st' = record o st) ->
  P (trace st) o -> emits P m st.
Proof.
  intros H HP r st' E. apply H in E as ->. exists [o].
  cbn. repeat split. exact HP.
Qed.

Lemma emits_ret (a : A) (st : State) : emits P (ret a) st.
Proof. apply emits_nothing. intros r st' E. now injection E. Qed.

Lemma emits_raise (e : exn) (st : State) : emits P (@raise A e) st.
Proof. apply emits_nothing. intros r st' E. now injection E. Qed.

Lemma emits_get (f : State -> A) (st : State) :
  emits P (BrowserManager.get f) st.
Proof. apply emits_nothing. intros r st' E. now injection E. Qed.

Lemma emits_ask (w : World) (o : op) (f : list op -> A) (st : State) :
  P (trace st) o -> emits P (ask w o f) st.
Proof.
  apply emits_one. unfold ask. intros r st'.
  destruct (w_raises w (trace st) o); intros E; now injection E.
Qed.

Lemma emits_read (o : op) (f : list op -> A) (st : State) :
  P (trace st) o -> emits P (read o f) st.
Proof. apply emits_one. unfold read. intros r st' E. now injection E. Qed.

Lemma emits_bind {B : Type} (m : M B) (k : B -> M A) (st : State) :
  emits P m st ->
  (forall b st1, m st = (Ok b, st1) -> emits P (k b) st1) ->
  emits P (bind m k) st.
Proof.
  intros Hm Hk r st' E. unfold bind in E.
  destruct (m st) as [[b|e] st1] eqn:Em.
  - destruct (Hm _ _ Em) as (e1 & T1 & A1 & S1).
    destruct (Hk b st1 eq_refl _ _ E) as (e2 & T2 & A2 & S2).
    exists (e1 ++ e2). rewrite T2, T1, <- app_assoc. split; [reflexivity|].
    split; [|now apply same_handles_trans with st1].
    apply all_from_app. split; [assumption|]. now rewrite <- T1.
  - injection E as <- <-. exact (Hm _ _ Em).
Qed.

Lemma emits_try_except (body : M A) (handler : exn -> M A) (st : State) :
  emits P body st ->
  (forall e st1, body st = (Raise e, st1) -> emits P (handler e) st1) ->
  emits P (try_except body handler) st.
Proof.
  intros Hb Hh r st' E. unfold try_except in E.
  destruct (body st) as [[a|e] st1] eqn:Eb.
  - injection E as <- <-. exact (Hb _ _ Eb).
  - destruct (isinstance_Exception e).
    + destruct (Hb _ _ Eb) as (e1 & T1 & A1 & S1).
      destruct (Hh e st1 eq_refl _ _ E) as (e2 & T2 & A2 & S2).
      exists (e1 ++ e2). rewrite T2, T1, <- app_assoc. split; [reflexivity|].
      split; [|now apply same_handles_trans with st1].
      apply all_from_app. split; [assumption|]. now rewrite <- T1.
    + injection E as <- <-. exact (Hb _ _ Eb).
Qed.

Lemma emits_try_finally (body : M A) (fin : M unit) (st : State) :
  emits P body st ->
  (forall r st1, body st = (r, st1) -> emits P fin st1) ->
  emits P (try_finally body fin) st.
Proof.
  intros Hb Hf r st' E. unfold try_finally in E.
  destruct (body st) as [rb st1] eqn:Eb.
  destruct (Hb _ _ Eb) as (e1 & T1 & A1 & S1).
  destruct (fin st1) as [rf st2] eqn:Ef.
  destruct (Hf rb st1 eq_refl _ _ Ef) as (e2 & T2 & A2 & S2).
  assert (st' = st2) as -> by (destruct rf; now injection E).
  exists (e1 ++ e2). rewrite T2, T1, <- app_assoc. split; [reflexivity|].
  split; [|now apply same_handles_trans with st1].
  apply all_from_app. split; [assumption|]. now rewrite <- T1.
Qed.

End RunFacts.

Lemma emits_call (P : list op -> op -> Prop) (w : World) (o : op)
    (st : State) :
  P (trace st) o -> emits P (call w o) st.
Proof.
  apply emits_one. unfold call. intros r st'.
  destruct (w_raises w (trace st) o); intros E; now injection E.
Qed.

Lemma emits_log (P : list op -> op -> Prop) (lvl : level) (m : log_msg)
    (st : State) :
  P (trace st) (Log lvl m) -> emits P (log lvl m) st.
Proof. apply emits_one. unfold log. intros r st' E. now injection E. Qed.

Lemma emits_when (P : list op -> op -> Prop) (b : bool) (m : M unit)
    (st : State) :
  (b = true -> emits P m st) -> emits P (when b m) st.
Proof. destruct b; cbn; intros H; [now apply H | apply emits_ret]. Qed.

Lemma emits_weaken {A} (P Q : list op -> op -> Prop) (m : M A) (st : State) :
  (forall h o, P h o -> Q h o) -> emits P m st -> emits Q m st.
Proof.
  intros HPQ Hm r st' E. destruct (Hm _ _ E) as (evs & T & Ha & S).
  exists evs. repeat split; try apply S; [assumption|].
  now apply all_from_weaken with P.
Qed.

(** One step of a proof that a computation only emits calls in [P]. *)
Ltac emits_step :=
  lazymatch goal with
  | |- emits _ (bind _ _) _ => apply emits_bind; [|intros ? ? ?]
  | |- emits _ (try_except _ _) _ => apply emits_try_except; [|intros ? ? ?]
  | |- emits _ (try_finally _ _) _ => apply emits_try_finally; [|intros ? ? ?]
  | |- emits _ (ret _) _ => apply emits_ret
  | |- emits _ (raise _) _ => apply emits_raise
  | |- emits _ (BrowserManager.get _) _ => apply emits_get
  | |- emits _ (log _ _) _ => apply emits_log
  | |- emits _ (call _ _) _ => apply emits_call
  | |- emits _ (ask _ _ _) _ => apply emits_ask
  | |- emits _ (read _ _) _ => apply emits_read
  | |- emits _ (when _ _) _ => apply emits_when; intros ?
  | |- emits _ (random_choice _ _) _ => unfold random_choice
  | |- emits _ (random_uniform _ _) _ => unfold random_uniform
  | |- emits _ (random_randint _ _ _) _ => unfold random_randint
  | |- emits _ (match ?x with _ => _ end) _ => destruct x
  end.

Section NoResultWait.
Variables (w : World) (self : BaseEngine.t).

Local Abbreviation quiet := (no_result_wait self).

Lemma navigate_no_result_wait query st :
  emits quiet (BaseEngine._navigate_to_search_page w self query) st.
Proof.
  unfold BaseEngine._navigate_to_search_page, BaseEngine._get_random_delay.
  repeat emits_step; reflexivity.
Qed.

Lemma base_anti_bot_no_result_wait st :
  emits quiet (BaseEngine._handle_anti_bot w self) st.
Proof.
  unfold BaseEngine._handle_anti_bot, BaseEngine._get_random_delay.
  repeat emits_step; reflexivity.
Qed.

Lemma google_anti_bot_no_result_wait st :
  emits quiet (GoogleEngine._handle_anti_bot w self) st.
Proof.
  unfold GoogleEngine._handle_anti_bot.
  repeat first [apply base_anti_bot_no_result_wait | emits_step];
    reflexivity.
Qed.

Lemma parse_no_result_wait st :
  emits quiet (GoogleEngine._parse_results w self) st.
Proof.
  unfold GoogleEngine._parse_results.
  repeat emits_step; reflexivity.
Qed.

Lemma search_no_result_wait context query st :
  emits quiet (GoogleEngine.search w self context query) st.
Proof.
  unfold GoogleEngine.search, BaseEngine._setup_page_headers.
  repeat first [ apply navigate_no_result_wait
               | apply google_anti_bot_no_result_wait
               | apply parse_no_result_wait
               | emits_step ];
    reflexivity.
Qed.

End NoResultWait.

Section ReturnFacts.
Context {A : Type} (Q : A -> Prop).

Lemma returns_ret (a : A) : Q a -> returns Q (ret a).
Proof. intros H st a' st' E. now injection E as <- _. Qed.

Lemma returns_raise (e : exn) : returns Q (raise e).
Proof. intros st a st' E. discriminate. Qed.

Lemma returns_bind {B : Type} (R : B -> Prop) (m : M B) (k : B -> M A) :
  returns R m -> (forall b, R b -> returns Q (k b)) -> returns Q (bind m k).
Proof.
  intros Hm Hk st a st' E. unfold bind in E.
  destruct (m st) as [[b|e] st1] eqn:Em; [|discriminate].
  exact (Hk b (Hm _ _ _ Em) _ _ _ E).
Qed.

Lemma returns_then {B : Type} (m : M B) (k : B -> M A) :
  (forall b, returns Q (k b)) -> returns Q (bind m k).
Proof.
  intros Hk. apply returns_bind with (R := fun _ => True); [easy|].
  intros b _. apply Hk.
Qed.

Lemma returns_try_except (body : M A) (handler : exn -> M A) :
  returns Q body -> (forall e, returns Q (handler e)) ->
  returns Q (try_except body handler).
Proof.
  intros Hb Hh st a st' E. unfold try_except in E.
  destruct (body st) as [[b|e] st1] eqn:Eb.
  - injection E as <- <-. exact (Hb _ _ _ Eb).
  - destruct (isinstance_Exception e); [|discriminate].
    exact (Hh e _ _ _ E).
Qed.

Lemma returns_try_finally (body : M A) (fin : M unit) :
  returns Q body -> returns Q (try_finally body fin).
Proof.
  intros Hb st a st' E. unfold try_finally in E.
  destruct (body st) as [rb st1] eqn:Eb.
  destruct (fin st1) as [[u|e] st2]; [|discriminate].
  injection E as -> <-. exact (Hb _ _ _ Eb).
Qed.

End ReturnFacts.

Lemma returns_ask {A} (w : World) (o : op) (f : list op -> A) :
  returns (fun a => exists h, a = f h) (ask w o f).
Proof.
  intros st a st' E. unfold ask in E.
  destruct (w_raises w (trace st) o); [discriminate|].
  injection E as <- _. now exists (trace st).
Qed.

(* ===================================================================== *)
(** ** The extraction routine *)
(* ===================================================================== *)

Section Extraction.

Lemma results_js_loop_length (limit : Z) (links : list Anchor.t)
    (acc : list GoogleEngine.Extracted.t) :
  Z.of_nat (length acc) <= limit ->
  Z.of_nat (length (GoogleEngine.results_js_loop limit links acc)) <= limit.
Proof.
  revert acc; induction links as [|link links IH]; intros acc Hacc;
    cbn [GoogleEngine.results_js_loop]; [assumption|].
  destruct (Z.of_nat (length acc) >=? limit) eqn:E; [assumption|].
  apply IH. rewrite Z.geb_leb in E. apply Z.leb_gt in E.
  destruct (GoogleEngine.candidate link); [|lia].
  rewrite length_app. cbn [length]. lia.
Qed.

Lemma results_js_length (limit : Z) (links : list Anchor.t) :
  0 <= limit -> Z.of_nat (length (GoogleEngine.results_js limit links)) <= limit.
Proof. intros H. now apply results_js_loop_length. Qed.

(** What [_parse_results] returns is the output of the script at the
    effective limit, each object passed through [_create_search_result]. *)
Lemma parse_results_returns (w : World) (self : BaseEngine.t) :
  returns
    (fun results =>
       exists h,
         results =
         List.map
           (fun item =>
              BaseEngine._create_search_result
                (GoogleEngine.Extracted.title item)
                (GoogleEngine.Extracted.link item)
                (GoogleEngine.Extracted.snippet item))
           (GoogleEngine.results_js
              (int_or (CommandOptions.limit (BaseEngine.options self)) 10)
              (w_document w h)))
    (GoogleEngine._parse_results w self).
Proof.
  unfold GoogleEngine._parse_results.
  do 2 (apply returns_then; intros ?).
  eapply returns_bind; [apply returns_ask|].
  intros extracted [h ->].
  do 2 (apply returns_then; intros ?).
  apply returns_ret. now exists h.
Qed.



End Extraction.

(* ===================================================================== *)
(** ** Fingerprint synthesis *)
(* ===================================================================== *)

Section Synthesis.

(** A run of [_get_host_machine_config] that returns: the three calls it
    makes and the fields it fills from their answers. *)
Lemma host_machine_config_inv (w : World) (self : BrowserManager.t)
    (st st' : State) (fp : Fingerprint.t) :
  BrowserManager._get_host_machine_config w self st = (Ok fp, st') ->
  trace st' = trace st ++ [DatetimeNow; RandomChoice 3; RandomChoice 3] /\
  same_handles st st' /\
  Fingerprint.colorScheme fp =
    BrowserManager.color_scheme (w_now_hour w (trace st)) /\
  Fingerprint.deviceName fp =
    nth (w_random w (trace st ++ [DatetimeNow]) mod 3)%nat
        BrowserManager.device_list [] /\
  w_devices w (Fingerprint.deviceName fp) = Some (Fingerprint.userAgent fp) /\
  Fingerprint.timezoneId fp =
    nth (w_random w (trace st ++ [DatetimeNow; RandomChoice 3]) mod 3)%nat
        BrowserManager.timezone_list [] /\
  Fingerprint.locale fp =
    str_or (CommandOptions.locale (BrowserManager.options self))
           (match w_environ_LANG w with Some l => l | None => py "zh-CN" end) /\
  Fingerprint.reducedMotion fp = py "no-preference" /\
  Fingerprint.forcedColors fp = py "none".
Proof.
  unfold BrowserManager._get_host_machine_config, random_choice, bind, read,
    raise, ret.
  cbn [length BrowserManager.device_list BrowserManager.timezone_list
       trace record].
  destruct (w_devices w _) as [ua|] eqn:Edev; cbv beta iota;
    [|intros E; discriminate E].
  intros E. injection E as <- <-.
  cbn [trace record Fingerprint.colorScheme Fingerprint.deviceName
       Fingerprint.userAgent Fingerprint.timezoneId Fingerprint.locale
       Fingerprint.reducedMotion Fingerprint.forcedColors].
  rewrite <- !app_assoc. cbn [app].
  repeat split; try reflexivity. exact Edev.
Qed.

Lemma color_scheme_dark (hour : Z) :
  BrowserManager.color_scheme hour = py "dark" <-> hour >= 18 \/ hour <= 6.
Proof.
  unfold BrowserManager.color_scheme.
  destruct (hour >=? 18) eqn:E1; destruct (hour <=? 6) eqn:E2; cbn [orb];
    rewrite ?Z.geb_leb in E1;
    rewrite ?Z.leb_le, ?Z.leb_gt in E1, E2;
    split; intros H; try reflexivity; try discriminate; lia.
Qed.

Lemma color_scheme_light (hour : Z) :
  BrowserManager.color_scheme hour = py "light" <-> ~ (hour >= 18 \/ hour <= 6).
Proof.
  unfold BrowserManager.color_scheme.
  destruct (hour >=? 18) eqn:E1; destruct (hour <=? 6) eqn:E2; cbn [orb];
    rewrite ?Z.geb_leb in E1;
    rewrite ?Z.leb_le, ?Z.leb_gt in E1, E2;
    split; intros H; try reflexivity; try discriminate; lia.
Qed.

End Synthesis.

(* ===================================================================== *)
(** ** The claims on pure functions *)
(* ===================================================================== *)

(** C7.  For every local hour h in 0..23 read by the synthesis, the
    synthesized fingerprint's colorScheme is "dark" if and only if h lies in
    [18,23] or in [0,6], and it is "light" otherwise. *)
Theorem synthesized_color_scheme (w : World) (self : BrowserManager.t)
    (st st' : State) (fp : Fingerprint.t) :
  BrowserManager._get_host_machine_config w self st = (Ok fp, st') ->
  0 <= w_now_hour w (trace st) <= 23 ->
  (Fingerprint.colorScheme fp = py "dark" <->
     18 <= w_now_hour w (trace st) <= 23 \/ 0 <= w_now_hour w (trace st) <= 6) /\
  (~ (18 <= w_now_hour w (trace st) <= 23 \/ 0 <= w_now_hour w (trace st) <= 6) ->
     Fingerprint.colorScheme fp = py "light").
Proof.
  intros Hrun Hh.
  destruct (host_machine_config_inv _ _ _ _ _ Hrun) as (_ & _ & -> & _).
  split.
  - rewrite color_scheme_dark. lia.
  - intros Hn. apply color_scheme_light. lia.
Qed.

Lemma synthesized_color_scheme_witness :
  let w := Sample.world Sample.never Sample.no_file None 20 None Sample.page in
  let self := BrowserManager.init (Sample.options (Some 10) (py "google")) in
  exists fp st',
    BrowserManager._get_host_machine_config w self initial = (Ok fp, st') /\
    0 <= w_now_hour w (trace initial) <= 23 /\
    (Fingerprint.colorScheme fp = py "dark" <->
       18 <= w_now_hour w (trace initial) <= 23 \/
       0 <= w_now_hour w (trace initial) <= 6).
Proof.
  intros w self. eexists _, _.
  assert (Hrun : BrowserManager._get_host_machine_config w self initial =
                 (Ok (Fingerprint.mk (py "Desktop Edge") (py "en_US.UTF-8")
                        (py "Asia/Shanghai") (py "dark") (py "no-preference")
                        (py "none") (py "Mozilla/5.0 Edg")),
                  mkState [DatetimeNow; RandomChoice 3; RandomChoice 3]
                          None None None))
    by reflexivity.
  assert (Hh : 0 <= w_now_hour w (trace initial) <= 23) by (cbn; lia).
  split; [exact Hrun|]. split; [exact Hh|].
  exact (proj1 (synthesized_color_scheme w self initial _ _ Hrun Hh)).
Defined.

(** C8.  For every query string, the constructed search URL is
    base_url + search_path + the query with every space replaced by '+',
    and nothing else in the query is changed. *)
Theorem build_search_url_spaces_to_plus (self : BaseEngine.t) (query : pystr) :
  BaseEngine._build_search_url self query =
  SearchEngineConfig.base_url (BaseEngine.config self) ++
  SearchEngineConfig.search_path (BaseEngine.config self) ++
  List.map (fun c => if N.eqb c SPACE then PLUS else c) query.
Proof.
  unfold BaseEngine._build_search_url.
  change (py " ") with [SPACE]. change (py "+") with [PLUS].
  now rewrite str_replace_char.
Qed.



(* ===================================================================== *)
(** ** The claims on the extraction routine and the search sequence *)
(* ===================================================================== *)

(** C2, as stated, fails: with a limit of 0 in the run options the
    extraction routine returns three results on a page with three result
    links. *)
Lemma limit_zero_returns_results :
  exists results st',
    GoogleEngine._parse_results
      (Sample.world Sample.never Sample.no_file None 20 None Sample.page)
      (GoogleEngine.init (Sample.options (Some 0) (py "google")))
      initial = (Ok results, st') /\
    ~ (Z.of_nat (length results) <= 0).
Proof.
  eexists _, _. split; [vm_compute; reflexivity|]. cbn. lia.
Qed.

(** C2, amended.  For every limit L >= 1 supplied in the run options and
    every rendered page, the extraction routine returns at most L results;
    a supplied limit of 0 is replaced by the default 10, and at most 10
    results are returned. *)
Theorem parse_results_at_most_limit (w : World) (self : BaseEngine.t)
    (st st' : State) (results : list SearchResult.t) (L : Z) :
  CommandOptions.limit (BaseEngine.options self) = Some L ->
  GoogleEngine._parse_results w self st = (Ok results, st') ->
  (1 <= L -> Z.of_nat (length results) <= L) /\
  (L = 0 -> Z.of_nat (length results) <= 10).
Proof.
  intros HL Hrun.
  destruct (parse_results_returns w self _ _ _ Hrun) as [h ->].
  rewrite HL, length_map. unfold int_or. split.
  - intros H1. destruct (L =? 0) eqn:E; [apply Z.eqb_eq in E; lia|].
    apply results_js_length. lia.
  - intros ->. cbn [Z.eqb]. apply results_js_length. lia.
Qed.

Lemma parse_results_at_most_limit_witness :
  let w := Sample.world Sample.never Sample.no_file None 20 None Sample.page in
  let self := GoogleEngine.init (Sample.options (Some 2) (py "google")) in
  exists results st',
    CommandOptions.limit (BaseEngine.options self) = Some 2 /\
    GoogleEngine._parse_results w self initial = (Ok results, st') /\
    1 <= 2 /\
    Z.of_nat (length results) <= 2.
Proof.
  intros w self. eexists _, _.
  assert (HL : CommandOptions.limit (BaseEngine.options self) = Some 2)
    by reflexivity.
  split; [exact HL|]. split; [vm_compute; reflexivity|].
  split; [lia|].
  refine (proj1 (parse_results_at_most_limit w self initial _ _ 2 HL _) _);
    [vm_compute; reflexivity | lia].
Defined.

Lemma all_from_Forall (Q : op -> Prop) (h evs : list op) :
  all_from (fun _ => Q) h evs -> Forall Q evs.
Proof.
  revert h; induction evs as [|o evs IH]; intros h; cbn; [constructor|].
  intros [H1 H2]. constructor; [assumption | now apply (IH _ H2)].
Qed.

(** C4: the search sequence never waits for the result container.  Whatever
    the environment answers, a run of [search] issues neither the 15000 ms
    wait for the result-container selector, nor its warning, nor its
    snapshot: [_wait_for_page_load] is not part of the sequence. *)
Theorem search_skips_result_wait (w : World) (self : BaseEngine.t)
    (context : BrowserContext) (query : pystr) (st st' : State)
    (r : result SearchResponse.t) :
  GoogleEngine.search w self context query st = (r, st') ->
  exists evs,
    trace st' = trace st ++ evs /\
    Forall (fun o => result_wait_step self o = false) evs.
Proof.
  intros Hrun.
  destruct (search_no_result_wait w self context query st _ _ Hrun)
    as (evs & T & Hall & _).
  exists evs. split; [exact T|].
  exact (all_from_Forall (fun o => result_wait_step self o = false) _ _ Hall).
Qed.

Lemma search_skips_result_wait_witness :
  let w := Sample.world Sample.selectors_time_out Sample.no_file None 20 None
                        Sample.page in
  let self := GoogleEngine.init (Sample.options (Some 10) (py "google")) in
  exists response st',
    GoogleEngine.search w self context_obj (py "openai gpt") initial
      = (Ok response, st') /\
    length (SearchResponse.results response) = 3%nat /\
    exists evs,
      trace st' = trace initial ++ evs /\
      Forall (fun o => result_wait_step self o = false) evs.
Proof.
  intros w self. eexists _, _.
  split; [vm_compute; reflexivity|]. split; [reflexivity|].
  eapply (search_skips_result_wait w self context_obj (py "openai gpt")
            initial).
  vm_compute. reflexivity.
Defined.

(** [_wait_for_page_load] itself does catch and continue: when the wait
    raises an [Exception] and the snapshot succeeds, it returns. *)
Lemma wait_for_page_load_continues (w : World) (self : BaseEngine.t)
    (st : State) (e : exn) :
  let sel := SearchEngineSelectors.result_container
               (SearchEngineConfig.selectors (BaseEngine.config self)) in
  let st1 := record (WaitForSelector sel 15000) st in
  let st2 := record (Log WARNING LogResultWaitTimeout) st1 in
  w_raises w (trace st) (WaitForSelector sel 15000) = Some e ->
  isinstance_Exception e = true ->
  w_raises w (trace st2) (Screenshot (py "google-debug.png") false) = None ->
  BaseEngine._wait_for_page_load w self st =
  (Ok tt, record (Screenshot (py "google-debug.png") false) st2).
Proof.
  intros sel st1 st2 H1 H2 H3.
  unfold BaseEngine._wait_for_page_load, try_except, call at 1.
  fold sel. rewrite H1, H2.
  unfold bind, log, call. fold st1 st2. now rewrite H3.
Qed.

(* ===================================================================== *)
(** ** Shutdown *)
(* ===================================================================== *)

Section Shutdown.
Variables (w : World) (self : BrowserManager.t).

Lemma host_machine_config_emits (P : list op -> op -> Prop) (st : State) :
  (forall h, P h DatetimeNow) -> (forall h, P h (RandomChoice 3)) ->
  emits P (BrowserManager._get_host_machine_config w self) st.
Proof.
  intros H1 H2. unfold BrowserManager._get_host_machine_config.
  repeat emits_step; first [apply H1 | apply H2].
Qed.



End Shutdown.





(* ===================================================================== *)
(** ** Launch and the orchestrator *)
(* ===================================================================== *)

Section Orchestrator.
Variable w : World.

Lemma bind_Ok_inv {A B} (m : M A) (k : A -> M B) (st st' : State) (b : B) :
  bind m k st = (Ok b, st') ->
  exists a st1, m st = (Ok a, st1) /\ k a st1 = (Ok b, st').
Proof.
  unfold bind. destruct (m st) as [[a|e] st1]; [|discriminate].
  intros H. now exists a, st1.
Qed.

Lemma call_Ok_inv (o : op) (st st' : State) (u : unit) :
  call w o st = (Ok u, st') -> st' = record o st.
Proof.
  unfold call. destruct (w_raises w (trace st) o); [discriminate|].
  intros H. now injection H.
Qed.




End Orchestrator.

Section OrchestratorRuns.
Variable w : World.




End OrchestratorRuns.




(* ===================================================================== *)
(** ** The reCAPTCHA probe *)
(* ===================================================================== *)

Section Running.

Lemma bind_run {A B} (m : M A) (k : A -> M B) (st st1 : State) (a : A)
    (res : result B * State) :
  m st = (Ok a, st1) -> k a st1 = res -> bind m k st = res.
Proof. intros Hm Hk. unfold bind. now rewrite Hm. Qed.

Lemma try_except_run {A} (body : M A) (handler : exn -> M A)
    (st st1 : State) (a : A) :
  body st = (Ok a, st1) -> try_except body handler st = (Ok a, st1).
Proof. intros Hb. unfold try_except. now rewrite Hb. Qed.

Lemma try_except_caught {A} (body : M A) (handler : exn -> M A)
    (st st1 : State) (e : exn) (res : result A * State) :
  body st = (Raise e, st1) -> isinstance_Exception e = true ->
  handler e st1 = res -> try_except body handler st = res.
Proof. intros Hb He Hh. unfold try_except. now rewrite Hb, He. Qed.

Lemma try_finally_run {A} (body : M A) (fin : M unit)
    (st st1 st2 : State) (r : result A) :
  body st = (r, st1) -> fin st1 = (Ok tt, st2) ->
  try_finally body fin st = (r, st2).
Proof. intros Hb Hf. unfold try_finally. now rewrite Hb, Hf. Qed.

Variable w : World.

(** When the probe returns a frame and the snapshot is taken, the exception
    that [_handle_anti_bot] raises is caught by its own [except] clause:
    the method logs that no reCAPTCHA was found and goes on with the
    humanisation of the base class. *)
Lemma handle_anti_bot_swallows (self : BaseEngine.t) (st : State) :
  let probe := WaitForSelector GoogleEngine.RECAPTCHA_SELECTOR 5000 in
  let shot := Screenshot (py "google-recaptcha.png") true in
  let st1 := record (Log WARNING LogRecaptchaDetected) (record probe st) in
  w_raises w (trace st) probe = None ->
  w_selector w (trace st) GoogleEngine.RECAPTCHA_SELECTOR
    = Some element_handle ->
  w_raises w (trace st1) shot = None ->
  GoogleEngine._handle_anti_bot w self st =
  BaseEngine._handle_anti_bot w self
    (record (Log INFO LogNoRecaptcha) (record shot st1)).
Proof.
  intros probe shot st1 Hprobe Hframe Hshot.
  unfold GoogleEngine._handle_anti_bot.
  eapply try_except_caught with (e := Exc Exception GoogleEngine.RECAPTCHA_MESSAGE)
                                (st1 := record shot st1);
    [|reflexivity|reflexivity].
  unfold bind, ask. fold probe. rewrite Hprobe, Hframe.
  unfold log, call. fold st1 shot. now rewrite Hshot.
Qed.

Hypothesis quiet : forall h o, w_raises w h o = None.

Lemma call_quiet (o : op) (st : State) : call w o st = (Ok tt, record o st).
Proof. unfold call. now rewrite quiet. Qed.

Lemma ask_quiet {A} (o : op) (f : list op -> A) (st : State) :
  ask w o f st = (Ok (f (trace st)), record o st).
Proof. unfold ask. now rewrite quiet. Qed.

(** One step of the evaluation of straight-line code in a world where no
    call raises. *)
Ltac run :=
  lazymatch goal with
  | |- bind _ _ _ = _ => eapply bind_run; [run | cbv beta; run]
  | |- call _ _ _ = _ => apply call_quiet
  | |- ask _ _ _ _ = _ => apply ask_quiet
  | |- _ => reflexivity
  end.

Lemma setup_page_headers_quiet (options : CommandOptions.t) (st : State) :
  exists st' evs,
    BaseEngine._setup_page_headers w (GoogleEngine.init options) st
      = (Ok tt, st') /\
    trace st' = trace st ++ evs.
Proof.
  eexists _, [_]. split; [cbn; apply call_quiet | reflexivity].
Qed.

Lemma navigate_quiet (options : CommandOptions.t) (query : pystr)
    (st : State) :
  exists st' evs,
    BaseEngine._navigate_to_search_page w (GoogleEngine.init options) query st
      = (Ok tt, st') /\
    trace st' = trace st ++ evs.
Proof.
  eexists _, [_; _; _; _]. split.
  - unfold BaseEngine._navigate_to_search_page, BaseEngine._get_random_delay.
    cbn [GoogleEngine.init BaseEngine.config GoogleEngine.GOOGLE_CONFIG
         SearchEngineConfig.custom_delay SearchEngineConfig.name
         CustomDelay.min CustomDelay.max].
    run.
  - cbn [record trace]. now rewrite <- !app_assoc.
Qed.

Lemma base_handle_anti_bot_quiet (options : CommandOptions.t) (st : State) :
  exists st' evs,
    BaseEngine._handle_anti_bot w (GoogleEngine.init options) st
      = (Ok tt, st') /\
    trace st' = trace st ++ evs.
Proof.
  unfold BaseEngine._handle_anti_bot, BaseEngine._get_random_delay.
  cbn [GoogleEngine.init BaseEngine.config GoogleEngine.GOOGLE_CONFIG
       SearchEngineConfig.anti_bot flag_truthy negb].
  destruct (w_viewport_size w (trace st)) as [[width height]|] eqn:Ev.
  - eexists _, [_; _; _; _; _; _; _; _]. split.
    + eapply bind_run; [reflexivity|]. cbv beta. rewrite Ev. run.
    + cbn [record trace]. now rewrite <- !app_assoc.
  - eexists _, [_; _; _; _; _]. split.
    + eapply bind_run; [reflexivity|]. cbv beta. rewrite Ev. run.
    + cbn [record trace]. now rewrite <- !app_assoc.
Qed.

Lemma parse_results_quiet (self : BaseEngine.t) (st : State) :
  let limit := int_or (CommandOptions.limit (BaseEngine.options self)) 10 in
  exists st' pre post h,
    GoogleEngine._parse_results w self st
      = (Ok (List.map
               (fun item =>
                  BaseEngine._create_search_result
                    (GoogleEngine.Extracted.title item)
                    (GoogleEngine.Extracted.link item)
                    (GoogleEngine.Extracted.snippet item))
               (GoogleEngine.results_js limit (w_document w h))),
         st') /\
    trace st' = trace st ++ pre ++ EvaluateResults limit :: post.
Proof.
  intros limit. unfold GoogleEngine._parse_results. fold limit.
  set (st2 := record (WaitForLoadState (py "domcontentloaded") 15000)
                (record (Log INFO LogParserStart) st)).
  destruct (GoogleEngine.results_js limit (w_document w (trace st2)))
    as [|item items] eqn:Ejs.
  - eexists _, [_; _], [_; _; _], (trace st2). split.
    + eapply bind_run; [reflexivity|]. cbv beta.
      eapply bind_run; [apply call_quiet|]. cbv beta. fold st2.
      eapply bind_run; [apply ask_quiet|]. cbv beta. rewrite Ejs. run.
    + cbn [record trace st2]. now rewrite <- !app_assoc.
  - eexists _, [_; _], [_], (trace st2). split.
    + eapply bind_run; [reflexivity|]. cbv beta.
      eapply bind_run; [apply call_quiet|]. cbv beta. fold st2.
      eapply bind_run; [apply ask_quiet|]. cbv beta. rewrite Ejs. run.
    + cbn [record trace st2]. now rewrite <- !app_assoc.
Qed.

End Running.

(** C1: a detected challenge does not abort the search.  In every
    environment in which no call raises and the probe for the reCAPTCHA
    frame returns a frame, [search] of the reference provider logs the
    warning and takes the snapshot, then logs that no reCAPTCHA was found,
    goes on to the extraction routine and returns its results: no error is
    raised. *)
Theorem challenge_does_not_abort_search (w : World)
    (options : CommandOptions.t) (context : BrowserContext) (query : pystr)
    (st : State) :
  (forall h o, w_raises w h o = None) ->
  (forall h, w_selector w h GoogleEngine.RECAPTCHA_SELECTOR
             = Some element_handle) ->
  let limit := int_or (CommandOptions.limit options) 10 in
  exists response st' pre post h,
    GoogleEngine.search w (GoogleEngine.init options) context query st
      = (Ok response, st') /\
    trace st' =
      trace st ++ pre ++
      [Log WARNING LogRecaptchaDetected;
       Screenshot (py "google-recaptcha.png") true;
       Log INFO LogNoRecaptcha] ++ post /\
    In (EvaluateResults limit) post /\
    SearchResponse.results response =
      List.map
        (fun item =>
           BaseEngine._create_search_result
             (GoogleEngine.Extracted.title item)
             (GoogleEngine.Extracted.link item)
             (GoogleEngine.Extracted.snippet item))
        (GoogleEngine.results_js limit (w_document w h)).
Proof.
  intros Hq Hf limit.
  pose (self := GoogleEngine.init options).
  pose (probe := WaitForSelector GoogleEngine.RECAPTCHA_SELECTOR 5000).
  pose (shot := Screenshot (py "google-recaptcha.png") true).
  pose (s1 := record NewPage (record TimeTime st)).
  destruct (setup_page_headers_quiet w Hq options s1) as (s2 & e2 & R2 & T2).
  destruct (navigate_quiet w Hq options query s2) as (s3 & e3 & R3 & T3).
  pose (s4 := record (Log INFO LogNoRecaptcha)
                (record shot (record (Log WARNING LogRecaptchaDetected)
                                (record probe s3)))).
  destruct (base_handle_anti_bot_quiet w Hq options s4)
    as (s5 & e5 & R5 & T5).
  assert (R4 : GoogleEngine._handle_anti_bot w self s3 = (Ok tt, s5)).
  { unfold self. rewrite handle_anti_bot_swallows;
      [exact R5 | apply Hq | apply Hf | apply Hq]. }
  destruct (parse_results_quiet w Hq self s5)
    as (s6 & pre6 & post6 & h & R6 & T6).
  fold limit in R6, T6. cbv zeta in R6, T6.
  change (int_or (CommandOptions.limit (BaseEngine.options self)) 10)
    with limit in R6, T6.
  set (results :=
         List.map
           (fun item =>
              BaseEngine._create_search_result
                (GoogleEngine.Extracted.title item)
                (GoogleEngine.Extracted.link item)
                (GoogleEngine.Extracted.snippet item))
           (GoogleEngine.results_js limit (w_document w h))) in *.
  pose (duration := (w_time w (trace s6) - w_time w (trace st)) * 1000).
  pose (done := Log INFO (LogSearchDone query (length results) duration)).
  exists (SearchResponse.mk query results (length results) duration
            (py "Google")),
         (record PageClose (record done (record TimeTime s6))),
         ([TimeTime; NewPage] ++ e2 ++ e3 ++ [probe]),
         (e5 ++ pre6 ++ EvaluateResults limit :: post6 ++
          [TimeTime; done; PageClose]),
         h.
  split; [|split; [|split; [|reflexivity]]].
  - unfold GoogleEngine.search. fold self.
    eapply bind_run; [reflexivity|]. cbv beta.
    eapply bind_run; [apply call_quiet, Hq|]. cbv beta.
    eapply try_finally_run; [|apply call_quiet, Hq].
    apply try_except_run.
    eapply bind_run; [exact R2|]. cbv beta.
    eapply bind_run; [exact R3|]. cbv beta.
    eapply bind_run; [exact R4|]. cbv beta.
    eapply bind_run; [exact R6|]. cbv beta.
    reflexivity.
  - cbn [record trace]. rewrite T6, T5. cbn [s4 record trace].
    rewrite T3, T2. cbn [s1 record trace].
    rewrite <- !app_assoc. reflexivity.
  - apply in_or_app. right. apply in_or_app. right. now left.
Qed.

Lemma challenge_does_not_abort_search_witness :
  let w := Sample.world Sample.never Sample.no_file None 20
                        (Some element_handle) Sample.page in
  let options := Sample.options (Some 10) (py "google") in
  (forall h o, w_raises w h o = None) /\
  (forall h, w_selector w h GoogleEngine.RECAPTCHA_SELECTOR
             = Some element_handle) /\
  exists response st',
    GoogleEngine.search w (GoogleEngine.init options) context_obj
      (py "openai gpt") initial = (Ok response, st') /\
    length (SearchResponse.results response) = 3%nat.
Proof.
  intros w options.
  assert (Hq : forall h o, w_raises w h o = None) by reflexivity.
  assert (Hf : forall h, w_selector w h GoogleEngine.RECAPTCHA_SELECTOR
                         = Some element_handle) by reflexivity.
  split; [exact Hq|]. split; [exact Hf|].
  destruct (challenge_does_not_abort_search w options context_obj
              (py "openai gpt") initial Hq Hf)
    as (response & st' & pre & post & h & Hrun & _ & _ & Hres).
  exists response, st'. split; [exact Hrun|].
  rewrite Hres, length_map. reflexivity.
Defined.

(* ===================================================================== *)
(** ** The engine registry *)
(* ===================================================================== *)

Section Registry.





End Registry.




(* ===================================================================== *)
(** ** Further properties of [_clean_text] *)
(* ===================================================================== *)

Section CleanMore.

Lemma clean_text_words (text : option pystr) :
  exists ws, Forall word ws /\
             BaseEngine._clean_text text = str_join [SPACE] ws.
Proof.
  destruct text as [text|]; [|exists []; split; [constructor | reflexivity]].
  unfold BaseEngine._clean_text.
  destruct (truthy text); cbn [negb];
    [|exists []; split; [constructor | reflexivity]].
  change (py " ") with [SPACE].
  assert (Hws : Forall word (str_split (str_replace [ZWSP] [] text))).
  { apply split_from_words; [constructor | apply delete_zwsp]. }
  exists (str_split (str_replace [ZWSP] [] text)). split; [exact Hws|].
  pose proof (str_join_normalized _ Hws) as Hn.
  apply str_strip_fixed; apply Hn.
Qed.

Lemma split_from_app_word (x cur r : pystr) :
  Forall (fun c => isspace c = false /\ c <> ZWSP) x ->
  split_from cur (x ++ r) = split_from (rev x ++ cur) r.
Proof.
  revert cur; induction x as [|a x IH]; intros cur Hx; [reflexivity|].
  inversion Hx as [|? ? [Ha _] Hx']; subst.
  cbn [app split_from rev]. rewrite Ha, (IH _ Hx'), <- app_assoc.
  reflexivity.
Qed.

Lemma rev_nonempty (x : pystr) : x <> [] -> rev x <> [].
Proof.
  intros Hx E. apply Hx. rewrite <- (rev_involutive x), E. reflexivity.
Qed.

(** Splitting a string of words joined by single spaces gives the words
    back. *)
Lemma str_split_join (ws : list pystr) :
  Forall word ws -> str_split (str_join [SPACE] ws) = ws.
Proof.
  unfold str_split.
  induction ws as [|x ws IH]; intros Hws; [reflexivity|].
  inversion Hws as [|? ? [Hne Hx] Hws']; subst.
  pose proof (rev_nonempty x Hne) as Hr.
  destruct ws as [|y ws].
  - cbn [str_join]. rewrite <- (app_nil_r x) at 1.
    rewrite split_from_app_word by assumption. rewrite app_nil_r.
    cbn [split_from]. destruct (rev x) eqn:E; [congruence|].
    now rewrite <- E, rev_involutive.
  - change (str_join [SPACE] (x :: y :: ws))
      with (x ++ SPACE :: str_join [SPACE] (y :: ws)).
    rewrite split_from_app_word by assumption. rewrite app_nil_r.
    cbn [split_from]. change (isspace SPACE) with true. cbv iota.
    destruct (rev x) eqn:E; [congruence|].
    rewrite <- E, rev_involutive. f_equal. now apply IH.
Qed.

Lemma filter_id_Forall (f : N -> bool) (s : pystr) :
  Forall (fun c => f c = true) s -> List.filter f s = s.
Proof.
  induction 1 as [|c s Hc _ IH]; [reflexivity|].
  cbn [List.filter]. now rewrite Hc, IH.
Qed.

Lemma delete_zwsp_fixed (s : pystr) :
  ~ In ZWSP s -> str_replace [ZWSP] [] s = s.
Proof.
  intros H. rewrite str_replace_delete. apply filter_id_Forall.
  apply List.Forall_forall. intros c Hc.
  apply negb_true_iff, N.eqb_neq. intros ->. now apply H.
Qed.

(** A string that [_clean_text] returned is left alone by it. *)
Lemma clean_text_fixed (ws : list pystr) :
  Forall word ws ->
  BaseEngine._clean_text (Some (str_join [SPACE] ws)) = str_join [SPACE] ws.
Proof.
  intros Hws. pose proof (str_join_normalized _ Hws) as Hn.
  unfold BaseEngine._clean_text.
  destruct (truthy (str_join [SPACE] ws)) eqn:Et; cbn [negb].
  - change (py " ") with [SPACE].
    rewrite delete_zwsp_fixed by apply Hn.
    rewrite str_split_join by assumption.
    apply str_strip_fixed; apply Hn.
  - destruct (str_join [SPACE] ws); [reflexivity | discriminate].
Qed.

Lemma content_app (a b : pystr) : content (a ++ b) = content a ++ content b.
Proof. unfold content. apply List.filter_app. Qed.

Lemma content_join_cons (x : pystr) (l : list pystr) :
  content (str_join [SPACE] (x :: l)) =
  content x ++ content (str_join [SPACE] l).
Proof.
  cbn [str_join]. destruct l as [|y l].
  - cbn [str_join]. change (content []) with (@nil N).
    now rewrite app_nil_r.
  - rewrite !content_app. reflexivity.
Qed.

Lemma content_split_from (s cur : pystr) :
  content (str_join [SPACE] (split_from cur s)) = content (rev cur ++ s).
Proof.
  revert cur; induction s as [|c s IH]; intros cur; cbn [split_from].
  - destruct cur as [|a cur]; [reflexivity|].
    cbn [str_join]. now rewrite app_nil_r.
  - destruct (isspace c) eqn:Ec.
    + assert (Hc : content (c :: s) = content s).
      { unfold content. cbn [List.filter]. now rewrite Ec. }
      destruct cur as [|a cur].
      * rewrite IH. cbn [rev app]. now rewrite Hc.
      * rewrite content_join_cons, IH. cbn [rev app].
        now rewrite (content_app (rev cur ++ [a]) (c :: s)), Hc.
    + rewrite IH. cbn [rev]. now rewrite <- app_assoc.
Qed.

Lemma content_delete_zwsp (s : pystr) :
  content (str_replace [ZWSP] [] s) = content s.
Proof.
  rewrite str_replace_delete. unfold content.
  induction s as [|c s IH]; [reflexivity|].
  cbn [List.filter]. destruct (N.eqb c ZWSP) eqn:E; cbn [negb].
  - rewrite andb_false_r. exact IH.
  - cbn [List.filter]. rewrite E. cbn [negb]. now rewrite IH.
Qed.

Lemma content_nil_iff (s : pystr) :
  content s = [] <-> Forall (fun c => isspace c = true \/ c = ZWSP) s.
Proof.
  unfold content. induction s as [|c s IH]; [split; constructor|].
  cbn [List.filter].
  destruct (isspace c) eqn:Ec; cbn [negb andb].
  - rewrite IH. split; intros H; [constructor; tauto|now inversion H].
  - destruct (N.eqb c ZWSP) eqn:Ez; cbn [negb].
    + apply N.eqb_eq in Ez. rewrite IH.
      split; intros H; [constructor; tauto|now inversion H].
    + apply N.eqb_neq in Ez. split; [discriminate|].
      intros H. inversion H as [|? ? [Hc|Hc] _]; congruence.
Qed.

Lemma clean_text_keeps_content_aux (text : pystr) :
  content (BaseEngine._clean_text (Some text)) = content text.
Proof.
  unfold BaseEngine._clean_text.
  destruct (truthy text) eqn:Et; cbn [negb].
  - change (py " ") with [SPACE].
    assert (Hws : Forall word (str_split (str_replace [ZWSP] [] text))).
    { apply split_from_words; [constructor | apply delete_zwsp]. }
    pose proof (str_join_normalized _ Hws) as Hn.
    rewrite str_strip_fixed by apply Hn.
    unfold str_split. rewrite content_split_from. cbn [rev app].
    apply content_delete_zwsp.
  - destruct text; [reflexivity | discriminate].
Qed.

End CleanMore.

(** X1.  [_clean_text] is idempotent: cleaning a cleaned text changes
    nothing. *)
Theorem clean_text_idempotent (text : option pystr) :
  BaseEngine._clean_text (Some (BaseEngine._clean_text text)) =
  BaseEngine._clean_text text.
Proof.
  destruct (clean_text_words text) as (ws & Hws & ->).
  now apply clean_text_fixed.
Qed.

(** X2.  [_clean_text] only removes or replaces whitespace and zero-width
    spaces: the other characters of the text come out unchanged and in the
    same order. *)
Theorem clean_text_keeps_content (text : pystr) :
  content (BaseEngine._clean_text (Some text)) = content text.
Proof.
  exact (clean_text_keeps_content_aux text).
Qed.

(** X3.  [_clean_text] returns the empty string exactly for the texts made
    of whitespace and zero-width spaces only (the empty text among them). *)
Theorem clean_text_empty_iff (text : pystr) :
  BaseEngine._clean_text (Some text) = [] <->
  Forall (fun c => isspace c = true \/ c = ZWSP) text.
Proof.
  rewrite <- content_nil_iff, <- clean_text_keeps_content_aux.
  split.
  - now intros ->.
  - intros Hc.
    destruct (BaseEngine._clean_text (Some text)) as [|c t] eqn:E;
      [reflexivity|].
    pose proof (clean_text_normalized (Some text)) as Hn. rewrite E in Hn.
    destruct Hn as (Hz & Hhead & _).
    unfold content in Hc. cbn [List.filter] in Hc.
    rewrite (Hhead c t eq_refl) in Hc. cbn [negb andb] in Hc.
    destruct (N.eqb c ZWSP) eqn:Ez; [|discriminate].
    apply N.eqb_eq in Ez. exfalso. apply Hz. now left.
Qed.

(* ===================================================================== *)
(** ** Further properties of the extraction script *)
(* ===================================================================== *)

Section ScriptMore.

Lemma results_js_loop_firstn (limit : Z) (links : list Anchor.t)
    (acc : list GoogleEngine.Extracted.t) :
  GoogleEngine.results_js_loop limit links acc =
  acc ++ firstn (Z.to_nat limit - length acc) (candidates links).
Proof.
  revert acc; induction links as [|link links IH]; intros acc;
    cbn [GoogleEngine.results_js_loop candidates flat_map].
  - now rewrite firstn_nil, app_nil_r.
  - destruct (Z.of_nat (length acc) >=? limit) eqn:E.
    + rewrite Z.geb_leb in E. apply Z.leb_le in E.
      replace (Z.to_nat limit - length acc)%nat with O by lia.
      now rewrite app_nil_r.
    + rewrite Z.geb_leb in E. apply Z.leb_gt in E.
      rewrite IH. fold (candidates links).
      destruct (GoogleEngine.candidate link) as [r|]; [|reflexivity].
      rewrite length_app, <- app_assoc. cbn [length app].
      replace (Z.to_nat limit - length acc)%nat
        with (S (Z.to_nat limit - (length acc + 1)))%nat by lia.
      reflexivity.
Qed.

Lemma results_js_firstn (limit : Z) (links : list Anchor.t) :
  GoogleEngine.results_js limit links =
  firstn (Z.to_nat limit) (candidates links).
Proof.
  unfold GoogleEngine.results_js. rewrite results_js_loop_firstn.
  cbn [length app]. now rewrite Nat.sub_0_r.
Qed.

Lemma in_candidates (links : list Anchor.t) (item : GoogleEngine.Extracted.t) :
  In item (candidates links) ->
  exists link, In link links /\ GoogleEngine.candidate link = Some item.
Proof.
  unfold candidates. intros H. apply in_flat_map in H as (link & Hl & Hi).
  exists link. split; [exact Hl|].
  destruct (GoogleEngine.candidate link) as [r|]; [|now destruct Hi].
  destruct Hi as [->|[]]. reflexivity.
Qed.

Lemma in_firstn {A} (n : nat) (l : list A) (x : A) :
  In x (firstn n l) -> In x l.
Proof.
  revert l; induction n as [|n IH]; intros [|a l]; cbn; try tauto.
  intros [->|H]; [now left | right; now apply IH].
Qed.

End ScriptMore.

(** X4.  The in-page script returns the first [limit] admissible links of
    the document, in document order, and nothing when [limit] is zero or
    negative. *)
Theorem results_js_first_candidates (limit : Z) (links : list Anchor.t) :
  GoogleEngine.results_js limit links =
    firstn (Z.to_nat limit) (candidates links) /\
  (limit <= 0 -> GoogleEngine.results_js limit links = []).
Proof.
  split; [apply results_js_firstn|].
  intros H. rewrite results_js_firstn.
  replace (Z.to_nat limit) with O by lia. reflexivity.
Qed.

Lemma results_js_first_candidates_witness :
  GoogleEngine.results_js 2 Sample.page
    = firstn 2 (candidates Sample.page) /\
  length (GoogleEngine.results_js 2 Sample.page) = 2%nat /\
  (-1 <= 0 -> GoogleEngine.results_js (-1) Sample.page = []).
Proof.
  split; [exact (proj1 (results_js_first_candidates 2 Sample.page))|].
  split; [reflexivity|].
  exact (proj2 (results_js_first_candidates (-1) Sample.page)).
Defined.

(** X5.  Every object that the script returns comes from a link of the
    document that has a non-empty heading: its title is the trimmed heading
    text, and its link is the address of that link, which is not empty, does
    not start with "javascript:" and contains "http". *)
Theorem results_js_items_admissible (limit : Z) (links : list Anchor.t)
    (item : GoogleEngine.Extracted.t) :
  In item (GoogleEngine.results_js limit links) ->
  exists link text,
    In link links /\
    Anchor.h3 link = Some text /\ text <> [] /\
    GoogleEngine.Extracted.title item = js_trim text /\
    GoogleEngine.Extracted.link item = Anchor.href link /\
    Anchor.href link <> [] /\
    startswith (py "javascript:") (Anchor.href link) = false /\
    contains (py "http") (Anchor.href link) = true.
Proof.
  rewrite results_js_firstn. intros H.
  apply in_firstn in H. apply in_candidates in H as (link & Hl & Hc).
  unfold GoogleEngine.candidate in Hc.
  destruct (Anchor.h3 link) as [text|] eqn:Eh; [|discriminate].
  destruct (truthy text) eqn:Et; [|discriminate].
  destruct (truthy (Anchor.href link)) eqn:Ehref; [|discriminate].
  cbn [andb] in Hc.
  destruct (startswith (py "javascript:") (Anchor.href link)) eqn:Ejs;
    [discriminate|].
  cbn [negb andb] in Hc.
  destruct (contains (py "http") (Anchor.href link)) eqn:Ehttp;
    [|discriminate].
  injection Hc as <-. exists link, text.
  repeat split; try reflexivity; try assumption.
  - intros ->. discriminate.
  - intros E. rewrite E in Ehref. discriminate.
Qed.

Lemma results_js_items_admissible_witness :
  exists item link text,
    In item (GoogleEngine.results_js 10 Sample.page) /\
    In link Sample.page /\
    Anchor.h3 link = Some text /\
    GoogleEngine.Extracted.title item = js_trim text /\
    contains (py "http") (Anchor.href link) = true.
Proof.
  assert (Hin : In (GoogleEngine.Extracted.mk
                      (py "Title " ++ [ZWSP; 49%N])
                      (py "https://example.org/1")
                      (py "some   text" ++ [ZWSP]))
                   (GoogleEngine.results_js 10 Sample.page))
    by (left; reflexivity).
  destruct (results_js_items_admissible 10 Sample.page _ Hin)
    as (link & text & Hl & Hh & _ & Ht & _ & _ & _ & Hc).
  eexists _, link, text. repeat split; eassumption.
Defined.

(* ===================================================================== *)
(** ** Further properties of the search sequence *)
(* ===================================================================== *)

Section SearchMore.
Variable w : World.

Lemma random_randint_inv (a b : Z) (st st' : State) (v : Z) :
  random_randint w a b st = (Ok v, st') ->
  a <= v <= b /\ st' = record (RandomRandint a b) st.
Proof.
  unfold random_randint. destruct (b <? a) eqn:E; [discriminate|].
  apply Z.ltb_ge in E. unfold read. intros H. injection H as <- <-.
  split; [|reflexivity].
  pose proof (Z.mod_pos_bound (Z.of_nat (w_random w (trace st))) (b - a + 1)).
  lia.
Qed.

Lemma google_search_bounded_waits (options : CommandOptions.t)
    (context : BrowserContext) (query : pystr) (st : State) :
  emits bounded_wait
        (GoogleEngine.search w (GoogleEngine.init options) context query) st.
Proof.
  unfold GoogleEngine.search, BaseEngine._setup_page_headers,
    BaseEngine._navigate_to_search_page, GoogleEngine._handle_anti_bot,
    BaseEngine._handle_anti_bot, GoogleEngine._parse_results,
    BaseEngine._get_random_delay.
  cbn [GoogleEngine.init BaseEngine.config BaseEngine.options
       GoogleEngine.GOOGLE_CONFIG SearchEngineConfig.custom_delay
       SearchEngineConfig.headers SearchEngineConfig.anti_bot
       SearchEngineConfig.name CustomDelay.min CustomDelay.max
       flag_truthy negb].
  repeat emits_step; try exact I; try reflexivity;
    match goal with
    | H : random_randint _ _ _ _ = (Ok _, _) |- _ =>
        exact (proj1 (random_randint_inv _ _ _ _ _ H))
    end.
Qed.

Lemma search_no_lifecycle (self : BaseEngine.t) (context : BrowserContext)
    (query : pystr) (st : State) :
  emits no_lifecycle_step (GoogleEngine.search w self context query) st.
Proof.
  unfold GoogleEngine.search, BaseEngine._setup_page_headers,
    BaseEngine._navigate_to_search_page, GoogleEngine._handle_anti_bot,
    BaseEngine._handle_anti_bot, GoogleEngine._parse_results,
    BaseEngine._get_random_delay.
  repeat emits_step; reflexivity.
Qed.

Lemma search_response_returns (self : BaseEngine.t)
    (context : BrowserContext) (query : pystr) :
  returns
    (fun response =>
       SearchResponse.query response = query /\
       SearchResponse.total_results response
         = length (SearchResponse.results response) /\
       SearchResponse.engine response
         = SearchEngineConfig.name (BaseEngine.config self))
    (GoogleEngine.search w self context query).
Proof.
  unfold GoogleEngine.search.
  do 2 (apply returns_then; intros ?).
  apply returns_try_finally, returns_try_except.
  - do 6 (apply returns_then; intros ?).
    apply returns_ret. cbn. auto.
  - intros e. do 2 (apply returns_then; intros ?). apply returns_raise.
Qed.

End SearchMore.

(** X6.  Every wait that a search of the reference provider issues is
    bounded as the code fixes it: each pause lasts between 1000 and 3000 ms,
    each wait for a selector has the timeout 5000 ms and each wait for a load
    state the timeout 15000 ms, however the run ends. *)
Theorem google_search_waits_are_bounded (w : World)
    (options : CommandOptions.t) (context : BrowserContext) (query : pystr)
    (st st' : State) (r : result SearchResponse.t) :
  GoogleEngine.search w (GoogleEngine.init options) context query st
    = (r, st') ->
  exists evs,
    trace st' = trace st ++ evs /\
    Forall (fun o =>
              match o with
              | WaitForTimeout ms => 1000 <= ms <= 3000
              | WaitForSelector _ ms => ms = 5000
              | WaitForLoadState _ ms => ms = 15000
              | _ => True
              end) evs.
Proof.
  intros Hrun.
  destruct (google_search_bounded_waits w options context query st _ _ Hrun)
    as (evs & T & Hall & _).
  exists evs. split; [exact T|].
  exact (all_from_Forall (bounded_wait []) _ _ Hall).
Qed.

Lemma google_search_waits_are_bounded_witness :
  let w := Sample.world Sample.probe_times_out Sample.no_file None 20 None
                        Sample.page in
  let options := Sample.options (Some 2) (py "google") in
  exists response st' evs,
    GoogleEngine.search w (GoogleEngine.init options) context_obj
      (py "openai gpt") initial = (Ok response, st') /\
    trace st' = trace initial ++ evs /\
    In (WaitForTimeout 1005) evs /\
    Forall (fun o =>
              match o with
              | WaitForTimeout ms => 1000 <= ms <= 3000
              | WaitForSelector _ ms => ms = 5000
              | WaitForLoadState _ ms => ms = 15000
              | _ => True
              end) evs.
Proof.
  intros w options.
  pose (run := GoogleEngine.search w (GoogleEngine.init options) context_obj
                 (py "openai gpt") initial).
  assert (Hrun : GoogleEngine.search w (GoogleEngine.init options) context_obj
                   (py "openai gpt") initial
                 = (Ok (Sample.response_of run), snd run))
    by (vm_compute; reflexivity).
  destruct (google_search_waits_are_bounded w options context_obj
              (py "openai gpt") initial _ _ Hrun) as (evs & T & Hall).
  exists (Sample.response_of run), (snd run), evs.
  split; [exact Hrun|]. split; [exact T|]. split; [|exact Hall].
  assert (Hevs : nth_error evs 6 = Some (WaitForTimeout 1005)).
  { change evs with ([] ++ evs). change [] with (trace initial).
    rewrite <- T. vm_compute. reflexivity. }
  exact (nth_error_In _ _ Hevs).
Defined.

(** X7.  A search makes no call that starts, configures or closes the
    browser, that reads or writes the identity files, or that prints the
    response, and it leaves the three handles of the manager as they are,
    however it ends. *)
Theorem search_leaves_lifecycle_alone (w : World) (self : BaseEngine.t)
    (context : BrowserContext) (query : pystr) (st st' : State)
    (r : result SearchResponse.t) :
  engine_search w self context query st = (r, st') ->
  same_handles st st' /\
  exists evs,
    trace st' = trace st ++ evs /\
    Forall (fun o => lifecycle_step o = false) evs.
Proof.
  unfold engine_search. destruct (BaseEngine.cls self). intros Hrun.
  destruct (search_no_lifecycle w self context query st _ _ Hrun)
    as (evs & T & Hall & Hs).
  split; [exact Hs|]. exists evs. split; [exact T|].
  exact (all_from_Forall (fun o => lifecycle_step o = false) _ _ Hall).
Qed.

Lemma search_leaves_lifecycle_alone_witness :
  exists st',
    fst (engine_search Sample.failing_world
           (GoogleEngine.init (Sample.options (Some 2) (py "google")))
           context_obj (py "openai gpt") Sample.after_launch)
      = Raise Sample.failing_error /\
    same_handles Sample.after_launch st' /\
    self_browser st' = Some browser_obj.
Proof.
  exists Sample.after_search.
  assert (Hrun : engine_search Sample.failing_world
                   (GoogleEngine.init (Sample.options (Some 2) (py "google")))
                   context_obj (py "openai gpt") Sample.after_launch
                 = (Raise Sample.failing_error, Sample.after_search))
    by (vm_compute; reflexivity).
  split; [now rewrite Hrun|].
  split; [|reflexivity].
  exact (proj1 (search_leaves_lifecycle_alone _ _ _ _ _ _ _ Hrun)).
Defined.

(** X8.  A response that a search returns echoes the query, names the
    engine of the configuration, and its totalResults is the number of its
    results. *)
Theorem search_response_is_consistent (w : World) (self : BaseEngine.t)
    (context : BrowserContext) (query : pystr) (st st' : State)
    (response : SearchResponse.t) :
  engine_search w self context query st = (Ok response, st') ->
  SearchResponse.query response = query /\
  SearchResponse.total_results response
    = length (SearchResponse.results response) /\
  SearchResponse.engine response
    = SearchEngineConfig.name (BaseEngine.config self).
Proof.
  unfold engine_search. destruct (BaseEngine.cls self).
  apply (search_response_returns w self context query).
Qed.

Lemma search_response_is_consistent_witness :
  let w := Sample.world Sample.probe_times_out Sample.no_file None 20 None
                        Sample.page in
  let self := GoogleEngine.init (Sample.options (Some 2) (py "google")) in
  exists response st',
    engine_search w self context_obj (py "openai gpt") initial
      = (Ok response, st') /\
    SearchResponse.total_results response = 2%nat /\
    SearchResponse.engine response = py "Google".
Proof.
  intros w self.
  pose (run := engine_search w self context_obj (py "openai gpt") initial).
  assert (Hrun : engine_search w self context_obj (py "openai gpt") initial
                 = (Ok (Sample.response_of run), snd run))
    by (vm_compute; reflexivity).
  exists (Sample.response_of run), (snd run).
  split; [exact Hrun|].
  destruct (search_response_is_consistent w self context_obj _ _ _ _ Hrun)
    as (_ & Ht & He).
  split; [rewrite Ht; reflexivity | exact He].
Defined.

(** X9.  Once the page is open, a search closes it whatever happens
    afterwards: when [new_page] does not raise, the last call of the run is
    [page.close()]. *)
Theorem search_always_closes_page (w : World) (self : BaseEngine.t)
    (context : BrowserContext) (query : pystr) (st st' : State)
    (r : result SearchResponse.t) :
  w_raises w (trace st ++ [TimeTime]) NewPage = None ->
  GoogleEngine.search w self context query st = (r, st') ->
  exists evs, trace st' = trace st ++ evs ++ [PageClose].
Proof.
  intros Hpage Hrun.
  unfold GoogleEngine.search in Hrun.
  unfold bind at 1, read at 1 in Hrun. cbv beta iota in Hrun.
  unfold bind at 1, call at 1 in Hrun.
  cbn [record trace] in Hrun. rewrite Hpage in Hrun. cbv beta iota in Hrun.
  unfold try_finally in Hrun.
  match type of Hrun with
  | (let (_, _) := ?body ?s in _) = _ =>
      assert (Hbody : emits any_call body s);
      [|destruct (body s) as [rb sb] eqn:Eb]
  end.
  { apply emits_try_except; [|intros ? ? ?].
    - apply emits_bind; [|intros ? ? ?].
      { unfold BaseEngine._setup_page_headers.
        repeat emits_step; exact I. }
      apply emits_bind; [|intros ? ? ?].
      { apply emits_weaken with (P := no_result_wait self); [easy|].
        apply navigate_no_result_wait. }
      apply emits_bind; [|intros ? ? ?].
      { apply emits_weaken with (P := no_result_wait self); [easy|].
        apply google_anti_bot_no_result_wait. }
      apply emits_bind; [|intros ? ? ?].
      { apply emits_weaken with (P := no_result_wait self); [easy|].
        apply parse_no_result_wait. }
      repeat emits_step; exact I.
    - repeat emits_step; exact I. }
  destruct (Hbody _ _ Eb) as (evs & T & _).
  assert (Hst : st' = record PageClose sb).
  { unfold call in Hrun.
    destruct (w_raises w (trace sb) PageClose); now injection Hrun. }
  exists ([TimeTime; NewPage] ++ evs). subst st'.
  cbn [record trace]. rewrite T. cbn [record trace].
  now rewrite <- !app_assoc.
Qed.

Lemma search_always_closes_page_witness :
  w_raises Sample.failing_world (trace Sample.after_launch ++ [TimeTime])
           NewPage = None /\
  fst (GoogleEngine.search Sample.failing_world
         (GoogleEngine.init (Sample.options (Some 2) (py "google")))
         context_obj (py "openai gpt") Sample.after_launch)
    = Raise Sample.failing_error /\
  exists evs,
    trace Sample.after_search = trace Sample.after_launch ++ evs ++ [PageClose].
Proof.
  assert (Hpage : w_raises Sample.failing_world
                    (trace Sample.after_launch ++ [TimeTime]) NewPage = None)
    by reflexivity.
  assert (Hrun : GoogleEngine.search Sample.failing_world
                   (GoogleEngine.init (Sample.options (Some 2) (py "google")))
                   context_obj (py "openai gpt") Sample.after_launch
                 = (Raise Sample.failing_error, Sample.after_search))
    by (vm_compute; reflexivity).
  split; [exact Hpage|]. split; [now rewrite Hrun|].
  exact (search_always_closes_page _ _ _ _ _ _ _ Hpage Hrun).
Defined.

(** X10.  [_get_random_delay] returns a delay between its two bounds after
    one draw, and raises a ValueError without any call when the upper bound
    is below the lower one. *)
Theorem get_random_delay_in_range (w : World) (min_delay max_delay : Z)
    (st : State) :
  (min_delay <= max_delay ->
   exists delay,
     BaseEngine._get_random_delay w min_delay max_delay st
       = (Ok delay, record (RandomRandint min_delay max_delay) st) /\
     min_delay <= delay <= max_delay) /\
  (max_delay < min_delay ->
   exists msg,
     BaseEngine._get_random_delay w min_delay max_delay st
       = (Raise (Exc ValueError msg), st)).
Proof.
  unfold BaseEngine._get_random_delay, random_randint. split; intros H.
  - destruct (max_delay <? min_delay) eqn:E; [apply Z.ltb_lt in E; lia|].
    eexists. split; [reflexivity|]. cbv beta.
    pose proof (Z.mod_pos_bound (Z.of_nat (w_random w (trace st)))
                  (max_delay - min_delay + 1)).
    lia.
  - apply Z.ltb_lt in H. rewrite H. eexists. reflexivity.
Qed.

Lemma get_random_delay_in_range_witness :
  let w := Sample.world Sample.never Sample.no_file None 20 None
                        Sample.page in
  1000 <= 3000 /\
  (exists delay,
     BaseEngine._get_random_delay w 1000 3000 initial
       = (Ok delay, record (RandomRandint 1000 3000) initial) /\
     1000 <= delay <= 3000) /\
  3000 < 5000 /\
  (exists msg,
     BaseEngine._get_random_delay w 5000 3000 initial
       = (Raise (Exc ValueError msg), initial)).
Proof.
  intros w.
  assert (H1 : 1000 <= 3000) by lia. assert (H2 : 3000 < 5000) by lia.
  split; [exact H1|].
  split; [exact (proj1 (get_random_delay_in_range w 1000 3000 initial) H1)|].
  split; [exact H2|].
  exact (proj2 (get_random_delay_in_range w 5000 3000 initial) H2).
Defined.

Section ParseMore.
Variable w : World.

Lemma ask_Ok_inv {A} (o : op) (f : list op -> A) (st st' : State) (a : A) :
  ask w o f st = (Ok a, st') -> a = f (trace st) /\ st' = record o st.
Proof.
  unfold ask. destruct (w_raises w (trace st) o); [discriminate|].
  intros H. injection H as <- <-. now split.
Qed.

End ParseMore.

(** X11.  When the extraction routine returns, it has taken the snapshot
    google-screenshot.png, after a warning and as its last call, exactly when
    it returns no result; when it returns results it takes no snapshot. *)
Theorem parse_results_snapshot_iff_empty (w : World) (self : BaseEngine.t)
    (st st' : State) (results : list SearchResult.t) :
  GoogleEngine._parse_results w self st = (Ok results, st') ->
  exists evs,
    trace st' = trace st ++ evs /\
    (results = [] ->
     exists pre,
       evs = pre ++ [Log WARNING LogParserEmpty;
                     Screenshot (py "google-screenshot.png") true]) /\
    (results <> [] -> Forall (fun o => is_screenshot o = false) evs).
Proof.
  unfold GoogleEngine._parse_results. intros H.
  apply bind_Ok_inv in H as (u1 & s1 & H1 & H).
  apply bind_Ok_inv in H as (u2 & s2 & H2 & H).
  apply bind_Ok_inv in H as (extracted & s3 & H3 & H).
  apply bind_Ok_inv in H as (u4 & s4 & H4 & H).
  apply bind_Ok_inv in H as (u5 & s5 & H5 & H).
  injection H as <- <-.
  injection H1 as _ <-. apply call_Ok_inv in H2. injection H4 as _ <-.
  apply ask_Ok_inv in H3 as [_ ->]. subst s2.
  destruct extracted as [|item items].
  - apply bind_Ok_inv in H5 as (u6 & s6 & H6 & H5).
    injection H6 as _ <-. apply call_Ok_inv in H5. subst s5.
    eexists. cbn [record trace]. rewrite <- !app_assoc. cbn [app].
    split; [reflexivity|]. split.
    + intros _. eexists [_; _; _; _]. reflexivity.
    + intros Hne. now destruct Hne.
  - injection H5 as _ <-.
    eexists. cbn [record trace]. rewrite <- !app_assoc. cbn [app].
    split; [reflexivity|]. split.
    + discriminate.
    + intros _. repeat constructor.
Qed.

Lemma parse_results_snapshot_iff_empty_witness :
  let w := Sample.world Sample.never Sample.no_file None 20 None [] in
  let self := GoogleEngine.init (Sample.options (Some 2) (py "google")) in
  exists st' evs,
    GoogleEngine._parse_results w self initial = (Ok [], st') /\
    trace st' = trace initial ++ evs /\
    exists pre,
      evs = pre ++ [Log WARNING LogParserEmpty;
                    Screenshot (py "google-screenshot.png") true].
Proof.
  intros w self.
  assert (Hrun : GoogleEngine._parse_results w self initial
                 = (Ok [], snd (GoogleEngine._parse_results w self initial)))
    by (vm_compute; reflexivity).
  destruct (parse_results_snapshot_iff_empty w self initial _ _ Hrun)
    as (evs & T & Hempty & _).
  exists (snd (GoogleEngine._parse_results w self initial)), evs.
  split; [exact Hrun|]. split; [exact T|]. exact (Hempty eq_refl).
Defined.

(* ===================================================================== *)
(** ** Further properties of the fingerprint synthesis *)
(* ===================================================================== *)

Section SynthesisMore.

Lemma nth_mod_In (n : nat) (l : list pystr) :
  l <> [] -> In (nth (n mod length l)%nat l []) l.
Proof.
  intros Hl. apply nth_In. apply Nat.mod_upper_bound.
  destruct l; [congruence | discriminate].
Qed.

End SynthesisMore.

(** X12.  A fingerprint that the synthesis returns has one of the three
    desktop profiles as deviceName, the user agent that the device table
    gives for that profile, one of the three time zones, "dark" or "light"
    as colorScheme, "no-preference" and "none" as reducedMotion and
    forcedColors, and as locale the configured one if it is non-empty, else
    the LANG of the environment, else "zh-CN". *)
Theorem synthesized_fingerprint_fields (w : World) (self : BrowserManager.t)
    (st st' : State) (fp : Fingerprint.t) :
  BrowserManager._get_host_machine_config w self st = (Ok fp, st') ->
  In (Fingerprint.deviceName fp) BrowserManager.device_list /\
  w_devices w (Fingerprint.deviceName fp) = Some (Fingerprint.userAgent fp) /\
  In (Fingerprint.timezoneId fp) BrowserManager.timezone_list /\
  (Fingerprint.colorScheme fp = py "dark" \/
   Fingerprint.colorScheme fp = py "light") /\
  Fingerprint.reducedMotion fp = py "no-preference" /\
  Fingerprint.forcedColors fp = py "none" /\
  Fingerprint.locale fp =
    match CommandOptions.locale (BrowserManager.options self) with
    | Some (c :: l) => c :: l
    | _ => match w_environ_LANG w with
           | Some lang => lang
           | None => py "zh-CN"
           end
    end.
Proof.
  intros Hrun.
  destruct (host_machine_config_inv _ _ _ _ _ Hrun)
    as (_ & _ & Hc & Hd & Hua & Htz & Hl & Hrm & Hfc).
  split; [rewrite Hd; now apply (nth_mod_In _ BrowserManager.device_list)|].
  split; [exact Hua|].
  split; [rewrite Htz; now apply (nth_mod_In _ BrowserManager.timezone_list)|].
  split.
  { rewrite Hc. unfold BrowserManager.color_scheme.
    destruct (_ || _); [now left | now right]. }
  split; [exact Hrm|]. split; [exact Hfc|].
  rewrite Hl. unfold str_or.
  destruct (CommandOptions.locale (BrowserManager.options self)) as [[|c l]|];
    reflexivity.
Qed.

Lemma synthesized_fingerprint_fields_witness :
  let w := Sample.world Sample.never Sample.no_file None 9 None Sample.page in
  let self := BrowserManager.init (Sample.options (Some 10) (py "google")) in
  exists fp st',
    BrowserManager._get_host_machine_config w self initial = (Ok fp, st') /\
    Fingerprint.colorScheme fp = py "light" /\
    In (Fingerprint.deviceName fp) BrowserManager.device_list /\
    Fingerprint.locale fp = py "en_US.UTF-8".
Proof.
  intros w self.
  assert (Hrun : BrowserManager._get_host_machine_config w self initial =
                 (Ok (Fingerprint.mk (py "Desktop Edge") (py "en_US.UTF-8")
                        (py "Asia/Shanghai") (py "light") (py "no-preference")
                        (py "none") (py "Mozilla/5.0 Edg")),
                  mkState [DatetimeNow; RandomChoice 3; RandomChoice 3]
                          None None None))
    by reflexivity.
  eexists _, _. split; [exact Hrun|]. split; [reflexivity|].
  destruct (synthesized_fingerprint_fields w self initial _ _ Hrun)
    as (Hd & _ & _ & _ & _ & _ & Hl).
  split; [exact Hd | exact Hl].
Defined.

(** X13.  The synthesis fails in one way only: with a KeyError that names
    the drawn profile, when the device table has no entry for it; it has
    then read the clock and drawn once. *)
Theorem synthesis_fails_on_missing_device (w : World)
    (self : BrowserManager.t) (st st' : State) (e : exn) :
  BrowserManager._get_host_machine_config w self st = (Raise e, st') ->
  exists device,
    In device BrowserManager.device_list /\
    w_devices w device = None /\
    e = Exc KeyError device /\
    trace st' = trace st ++ [DatetimeNow; RandomChoice 3].
Proof.
  unfold BrowserManager._get_host_machine_config, random_choice, bind, read,
    raise, ret.
  cbn [length BrowserManager.device_list BrowserManager.timezone_list
       trace record].
  destruct (w_devices w _) as [ua|] eqn:Edev; cbv beta iota;
    [intros H; discriminate H|].
  intros H. injection H as <- <-. eexists. split; [|split; [exact Edev|]].
  - now apply (nth_mod_In _ BrowserManager.device_list).
  - split; [reflexivity|]. cbn [record trace].
    now rewrite <- app_assoc.
Qed.

Lemma synthesis_fails_on_missing_device_witness :
  let w := {| w_raises := fun _ _ => None;
              w_path_exists := fun _ _ => false;
              w_json_load := fun _ _ => None;
              w_environ_LANG := None;
              w_now_hour := fun _ => 9;
              w_random := fun _ => 2%nat;
              w_time := fun _ => 0;
              w_devices := fun _ => None;
              w_selector := fun _ _ => None;
              w_viewport_size := fun _ => None;
              w_document := fun _ => [] |} in
  let self := BrowserManager.init (Sample.options (Some 10) (py "google")) in
  BrowserManager._get_host_machine_config w self initial
    = (Raise (Exc KeyError (py "Desktop Firefox")),
       mkState [DatetimeNow; RandomChoice 3] None None None) /\
  exists device,
    In device BrowserManager.device_list /\
    Exc KeyError (py "Desktop Firefox") = Exc KeyError device.
Proof.
  intros w self.
  assert (Hrun : BrowserManager._get_host_machine_config w self initial
                 = (Raise (Exc KeyError (py "Desktop Firefox")),
                    mkState [DatetimeNow; RandomChoice 3] None None None))
    by reflexivity.
  split; [exact Hrun|].
  destruct (synthesis_fails_on_missing_device w self initial _ _ Hrun)
    as (device & Hin & _ & He & _).
  exists device. split; [exact Hin | exact He].
Defined.

(* ===================================================================== *)
(** ** Further properties of the registry and of the probe *)
(* ===================================================================== *)

(** X14.  The registry resolves exactly the names that are "google" in some
    letter case, each to a GoogleEngine carrying GOOGLE_CONFIG and the
    caller's options; every name that [get_supported_engines] lists
    resolves. *)
Theorem create_engine_resolves_google (engine_name : pystr)
    (options : CommandOptions.t) (engine : BaseEngine.t) :
  (create_engine engine_name options = Ok engine <->
   str_lower engine_name = py "google" /\
   engine = BaseEngine.mk GoogleEngineClass GoogleEngine.GOOGLE_CONFIG options)
  /\
  Forall (fun name => create_engine name options
                      = Ok (GoogleEngine.init options))
         get_supported_engines.
Proof.
  split.
  - unfold create_engine, ENGINE_MAP.
    destruct ({[py "google" := GoogleEngineClass]} !! str_lower engine_name)
      as [c|] eqn:E.
    + apply lookup_singleton_Some in E as [E <-]. split.
      * intros H. injection H as <-. now split.
      * intros [_ ->]. reflexivity.
    + apply lookup_singleton_None in E. split; [discriminate|].
      intros [H _]. now symmetry in H.
  - unfold get_supported_engines, ENGINE_MAP.
    rewrite map_to_list_singleton. repeat constructor.
Qed.

(** X15.  When the probe for the reCAPTCHA frame raises an [Exception]
    (the frame did not appear in time), the probe of the reference provider
    logs that and hands over to the humanisation of the base class; when the
    probe returns without a frame and without raising, nothing more is
    done. *)
Theorem handle_anti_bot_without_frame (w : World) (self : BaseEngine.t)
    (st : State) :
  let probe := WaitForSelector GoogleEngine.RECAPTCHA_SELECTOR 5000 in
  (forall e,
     w_raises w (trace st) probe = Some e ->
     isinstance_Exception e = true ->
     GoogleEngine._handle_anti_bot w self st =
     BaseEngine._handle_anti_bot w self
       (record (Log INFO LogNoRecaptcha) (record probe st))) /\
  (w_raises w (trace st) probe = None ->
   w_selector w (trace st) GoogleEngine.RECAPTCHA_SELECTOR = None ->
   GoogleEngine._handle_anti_bot w self st = (Ok tt, record probe st)).
Proof.
  intros probe. split.
  - intros e Hraise Hexc. unfold GoogleEngine._handle_anti_bot.
    eapply try_except_caught with (e := e) (st1 := record probe st);
      [|exact Hexc|reflexivity].
    unfold bind, ask. fold probe. now rewrite Hraise.
  - intros Hraise Hnone. unfold GoogleEngine._handle_anti_bot.
    apply try_except_run.
    unfold bind, ask. fold probe. now rewrite Hraise, Hnone.
Qed.

Lemma handle_anti_bot_without_frame_witness :
  let w := Sample.world Sample.probe_times_out Sample.no_file None 20 None
                        Sample.page in
  let self := GoogleEngine.init (Sample.options (Some 2) (py "google")) in
  let probe := WaitForSelector GoogleEngine.RECAPTCHA_SELECTOR 5000 in
  let e := Exc TimeoutError (py "Timeout 5000ms exceeded.") in
  w_raises w (trace initial) probe = Some e /\
  isinstance_Exception e = true /\
  GoogleEngine._handle_anti_bot w self initial =
  BaseEngine._handle_anti_bot w self
    (record (Log INFO LogNoRecaptcha) (record probe initial)).
Proof.
  intros w self probe e.
  assert (H1 : w_raises w (trace initial) probe = Some e) by reflexivity.
  assert (H2 : isinstance_Exception e = true) by reflexivity.
  split; [exact H1|]. split; [exact H2|].
  exact (proj1 (handle_anti_bot_without_frame w self initial) e H1 H2).
Defined.

(* ===================================================================== *)
(** ** Further properties of loading, launching and closing *)
(* ===================================================================== *)

(** The case analysis on an outcome of [_load_saved_state]. *)
Ltac load_cases :=
  repeat split; intros; subst; try discriminate;
  repeat match goal with
         | H : Ok _ = Ok _ |- _ => injection H as <-
         | H : Raise _ = Raise _ |- _ => injection H as <-
         end;
  try reflexivity; try assumption.

(** X16.  [_load_saved_state] never raises an [Exception]: a fingerprint
    file that cannot be read only costs the fingerprint.  Without a state
    file it returns neither a session nor a fingerprint and does not look at
    the fingerprint file; with a state file the session it returns is the
    state-file path. *)
Theorem load_saved_state_outcomes (w : World) (self : BrowserManager.t)
    (st st' : State) (r : result (option pystr * option Fingerprint.t)) :
  BrowserManager._load_saved_state w self st = (r, st') ->
  (forall e, r = Raise e -> isinstance_Exception e = false) /\
  (w_path_exists w (trace st) (BrowserManager.state_file self) = false ->
   r = Ok (None, None) /\
   trace st' = trace st ++ [PathExists (BrowserManager.state_file self);
                            Log INFO LogNoStateFile]) /\
  (w_path_exists w (trace st) (BrowserManager.state_file self) = true ->
   forall loaded, r = Ok loaded ->
                  fst loaded = Some (BrowserManager.state_file self)).
Proof.
  unfold BrowserManager._load_saved_state.
  unfold bind at 1, read at 1. cbv beta iota.
  destruct (w_path_exists w (trace st) (BrowserManager.state_file self)).
  - unfold bind at 1, log at 1. cbv beta iota.
    unfold bind at 1, read at 1. cbv beta iota.
    destruct (w_path_exists w _ (BrowserManager.fingerprint_file self)).
    + unfold try_except, bind, ask, log, ret.
      destruct (w_raises w _ _) as [e|] eqn:Er;
        [destruct (isinstance_Exception e) eqn:Ee|];
        intros H; injection H as <- <-; load_cases.
    + unfold ret. intros H. injection H as <- <-. load_cases.
  - unfold bind, log, ret. intros H. injection H as <- <-. load_cases.
    cbn [record trace]. now rewrite <- app_assoc.
Qed.

Lemma load_saved_state_outcomes_witness :
  let w := Sample.world Sample.never Sample.no_file None 20 None
                        Sample.page in
  let self := BrowserManager.init (Sample.options (Some 2) (py "google")) in
  w_path_exists w (trace initial) (BrowserManager.state_file self) = false /\
  fst (BrowserManager._load_saved_state w self initial) = Ok (None, None).
Proof.
  intros w self.
  assert (Hno : w_path_exists w (trace initial)
                  (BrowserManager.state_file self) = false) by reflexivity.
  split; [exact Hno|].
  destruct (BrowserManager._load_saved_state w self initial) as [r st'] eqn:E.
  destruct (load_saved_state_outcomes w self initial st' r E) as (_ & H & _).
  exact (proj1 (H Hno)).
Defined.

Section LaunchMore.
Variable w : World.


End LaunchMore.



Section ThrowsFacts.
Context {A : Type} (P : exn -> Prop).

Lemma throws_never (m : M A) (st : State) :
  (forall e st', m st <> (Raise e, st')) -> throws P m st.
Proof. intros H e st' E. now apply H in E. Qed.

Lemma throws_ret (a : A) (st : State) : throws P (ret a) st.
Proof. apply throws_never. discriminate. Qed.

Lemma throws_raise (e : exn) (st : State) : P e -> throws P (@raise A e) st.
Proof. intros He e' st' E. now injection E as <- _. Qed.

Lemma throws_read (o : op) (f : list op -> A) (st : State) :
  throws P (read o f) st.
Proof. apply throws_never. discriminate. Qed.

Lemma throws_get (f : State -> A) (st : State) :
  throws P (BrowserManager.get f) st.
Proof. apply throws_never. discriminate. Qed.

Lemma throws_bind {B : Type} (m : M B) (k : B -> M A) (st : State) :
  throws P m st ->
  (forall b st1, m st = (Ok b, st1) -> throws P (k b) st1) ->
  throws P (bind m k) st.
Proof.
  intros Hm Hk e st' E. unfold bind in E.
  destruct (m st) as [[b|e0] st1] eqn:Em.
  - exact (Hk b st1 eq_refl e st' E).
  - injection E as <- <-. exact (Hm _ _ Em).
Qed.

End ThrowsFacts.

Lemma throws_call (w : World) (o : op) (st : State) :
  only_exceptions w ->
  throws (fun e => isinstance_Exception e = true) (call w o) st.
Proof.
  intros Hw e st' E. unfold call in E.
  destruct (w_raises w (trace st) o) as [e0|] eqn:Er; [|discriminate].
  injection E as <- _. exact (Hw _ _ _ Er).
Qed.

Lemma throws_log (P : exn -> Prop) (lvl : level) (m : log_msg) (st : State) :
  throws P (log lvl m) st.
Proof. intros e st' E. discriminate. Qed.

Lemma throws_when (P : exn -> Prop) (b : bool) (m : M unit) (st : State) :
  (b = true -> throws P m st) -> throws P (when b m) st.
Proof. destruct b; cbn; intros H; [now apply H | apply throws_ret]. Qed.

(** One step of a proof that a computation raises Exceptions only. *)
Ltac throws_step Hw :=
  lazymatch goal with
  | |- throws _ (bind _ _) _ => apply throws_bind; [|intros ? ? ?]
  | |- throws _ (ret _) _ => apply throws_ret
  | |- throws _ (raise _) _ => apply throws_raise; reflexivity
  | |- throws _ (BrowserManager.get _) _ => apply throws_get
  | |- throws _ (log _ _) _ => apply throws_log
  | |- throws _ (call _ _) _ => apply throws_call; exact Hw
  | |- throws _ (read _ _) _ => apply throws_read
  | |- throws _ (when _ _) _ => apply throws_when; intros ?
  | |- throws _ (random_choice _ _) _ => unfold random_choice
  | |- throws _ (match ?x with _ => _ end) _ => destruct x
  end.

Section CloseMore.
Variable w : World.

Lemma bind_inv {A B} (m : M A) (k : A -> M B) (st st' : State)
    (r : result B) :
  bind m k st = (r, st') ->
  (exists a st1, m st = (Ok a, st1) /\ k a st1 = (r, st')) \/
  (exists e, m st = (Raise e, st') /\ r = Raise e).
Proof.
  unfold bind. destruct (m st) as [[a|e] st1]; intros H.
  - left. now exists a, st1.
  - right. injection H as <- <-. now exists e.
Qed.

(** A guarded [try] whose handler only logs returns normally when its body
    raises Exceptions only. *)
Lemma guarded_try_returns (c : bool) (lvl : level) (msg : log_msg)
    (body : M unit) (failed : exn -> log_msg) (st st' : State)
    (r : result unit) :
  throws (fun e => isinstance_Exception e = true) body
         (record (Log lvl msg) st) ->
  when c (log lvl msg >>
          try_except body (fun e => log WARNING (failed e))) st = (r, st') ->
  r = Ok tt.
Proof.
  intros Hth. destruct c; cbn [when]; [|intros H; now injection H as <- _].
  unfold bind, log, try_except.
  destruct (body (record (Log lvl msg) st)) as [[[]|e] s1] eqn:Eb.
  - intros H. now injection H as <- _.
  - rewrite (Hth _ _ Eb). intros H. now injection H as <- _.
Qed.

End CloseMore.

(** X18.  With saving disabled, or without an open context, [close] takes
    no step of the persistence: it asks for no path, creates no directory,
    writes neither the session state nor a fingerprint and runs no
    synthesis. *)
Theorem close_skips_persistence (w : World) (self : BrowserManager.t)
    (st st' : State) (r : result unit) :
  flag_truthy (CommandOptions.no_save_state (BrowserManager.options self))
    = true \/ self_context st = None ->
  BrowserManager.close w self st = (r, st') ->
  exists evs,
    trace st' = trace st ++ evs /\
    Forall (fun o => persistence_step o = false) evs.
Proof.
  intros Hskip Hrun. unfold BrowserManager.close in Hrun.
  unfold bind at 1, BrowserManager.get at 1 in Hrun. cbv beta iota in Hrun.
  assert (Hcond : BrowserManager.is_set (self_context st) &&
                  negb (flag_truthy (CommandOptions.no_save_state
                                       (BrowserManager.options self)))
                  = false).
  { destruct Hskip as [->| ->]; [apply andb_false_r | reflexivity]. }
  rewrite Hcond in Hrun. cbn [when] in Hrun.
  match type of Hrun with
  | ?m st = _ => assert (Hem : emits no_persistence_step m st)
  end.
  { repeat emits_step; reflexivity. }
  destruct (Hem _ _ Hrun) as (evs & T & Hall & _).
  exists evs. split; [exact T|].
  exact (all_from_Forall (fun o => persistence_step o = false) _ _ Hall).
Qed.

Lemma close_skips_persistence_witness :
  let w := Sample.world Sample.never Sample.every_file None 20 None
                        Sample.page in
  let options := CommandOptions.mk (Some 10) (Some 60000) (Some true)
                   (Some (py "./browser-state.json")) (Some true) None None
                   (Some (py "google")) in
  let self := BrowserManager.init options in
  BrowserManager.close w self Sample.launched
    = (Ok tt, mkState [BrowserClose; Log INFO LogBrowserClosed; PlaywrightStop]
                      (Some playwright_obj) (Some browser_obj)
                      (Some context_obj)) /\
  exists evs,
    [BrowserClose; Log INFO LogBrowserClosed; PlaywrightStop]
      = trace Sample.launched ++ evs /\
    Forall (fun o => persistence_step o = false) evs.
Proof.
  intros w options self.
  assert (Hrun : BrowserManager.close w self Sample.launched
    = (Ok tt, mkState [BrowserClose; Log INFO LogBrowserClosed; PlaywrightStop]
                      (Some playwright_obj) (Some browser_obj)
                      (Some context_obj))) by reflexivity.
  split; [exact Hrun|].
  exact (close_skips_persistence w self _ _ _ (or_introl eq_refl) Hrun).
Defined.

(** X19.  Persistence is best effort: in an environment that raises
    Exceptions only, whatever fails while the state and the fingerprint are
    saved, [close] still goes on to close the browser when one was
    launched. *)
Theorem close_always_closes_browser (w : World) (self : BrowserManager.t)
    (st st' : State) (r : result unit) :
  only_exceptions w ->
  self_browser st = Some browser_obj ->
  BrowserManager.close w self st = (r, st') ->
  exists evs, trace st' = trace st ++ evs /\ In BrowserClose evs.
Proof.
  intros Hw Hbrowser Hrun. unfold BrowserManager.close in Hrun.
  unfold bind at 1, BrowserManager.get at 1 in Hrun. cbv beta iota in Hrun.
  apply bind_inv in Hrun as [(u & s1 & Hp & Hrun)|(e & Hp & _)].
  - assert (Hem : exists e1, trace s1 = trace st ++ e1 /\ same_handles st s1).
    { match type of Hp with
      | ?m st = _ => assert (Hem : emits any_call m st)
      end.
      { repeat first
          [ apply host_machine_config_emits; intros ?; exact I
          | emits_step ]; exact I. }
      destruct (Hem _ _ Hp) as (e1 & T & _ & S). eauto. }
    destruct Hem as (e1 & T1 & _ & Sb & _).
    unfold bind at 1, BrowserManager.get at 1 in Hrun.
    cbv beta iota in Hrun. rewrite Sb, Hbrowser in Hrun.
    cbn [BrowserManager.is_set when] in Hrun.
    apply bind_inv in Hrun as [(u2 & s2 & Hc & Hrun)|(e & Hc & _)].
    + apply bind_Ok_inv in Hc as (u3 & s3 & Hc & Hl).
      apply (call_Ok_inv w) in Hc. injection Hl as _ <-. subst s3.
      match type of Hrun with
      | ?m ?s = _ => assert (Hem : emits any_call m s)
      end.
      { repeat emits_step; exact I. }
      destruct (Hem _ _ Hrun) as (e2 & T2 & _).
      exists (e1 ++ [BrowserClose; Log INFO LogBrowserClosed] ++ e2).
      split.
      * rewrite T2. cbn [record trace]. rewrite T1, <- !app_assoc.
        reflexivity.
      * apply in_or_app. right. now left.
    + unfold bind, call in Hc.
      destruct (w_raises w (trace s1) BrowserClose); [|discriminate].
      injection Hc as _ <-.
      exists (e1 ++ [BrowserClose]). split.
      * cbn [record trace]. now rewrite T1, <- app_assoc.
      * apply in_or_app. right. now left.
  - exfalso.
    assert (Hok : Raise e = Ok tt); [|discriminate].
    eapply guarded_try_returns; [|exact Hp].
    repeat first [throws_step Hw | unfold BrowserManager._get_host_machine_config].
Qed.

Lemma close_always_closes_browser_witness :
  let w := Sample.world
             (fun o => match o with
                       | StorageState _ => Some (Exc OSError (py "disk full"))
                       | _ => None
                       end)
             Sample.every_file None 20 None Sample.page in
  let self := BrowserManager.init (Sample.options (Some 2) (py "google")) in
  only_exceptions w /\
  self_browser Sample.launched = Some browser_obj /\
  exists st' evs,
    BrowserManager.close w self Sample.launched = (Ok tt, st') /\
    trace st' = trace Sample.launched ++ evs /\
    In (Log WARNING (LogSaveFailed (Exc OSError (py "disk full")))) evs /\
    In BrowserClose evs.
Proof.
  intros w self.
  assert (Hw : only_exceptions w).
  { intros h o e. cbn. destruct o; intros H; try discriminate.
    now injection H as <-. }
  assert (Hb : self_browser Sample.launched = Some browser_obj)
    by reflexivity.
  split; [exact Hw|]. split; [exact Hb|].
  assert (Hrun : BrowserManager.close w self Sample.launched
                 = (Ok tt, snd (BrowserManager.close w self Sample.launched)))
    by (vm_compute; reflexivity).
  destruct (close_always_closes_browser w self _ _ _ Hw Hb Hrun)
    as (evs & T & Hin).
  exists (snd (BrowserManager.close w self Sample.launched)), evs.
  split; [exact Hrun|]. split; [exact T|]. split; [|exact Hin].
  assert (Hevs : nth_error evs 3
                 = Some (Log WARNING (LogSaveFailed
                                        (Exc OSError (py "disk full"))))).
  { change evs with ([] ++ evs). change [] with (trace Sample.launched).
    rewrite <- T. vm_compute. reflexivity. }
  exact (nth_error_In _ _ Hevs).
Defined.

(* ===================================================================== *)
(** ** Further properties of the orchestrator *)
(* ===================================================================== *)

(** X20.  [main] lets no [Exception] of the launch, of the engine
    resolution, of the search or of the output escape: when [main] raises an
    [Exception], it is [close] that raised it. *)
Theorem main_raises_only_from_close (w : World) (options : CommandOptions.t)
    (query : pystr) (st st' : State) (e : exn) :
  main w options query st = (Raise e, st') ->
  isinstance_Exception e = true ->
  exists st3,
    BrowserManager.close w (BrowserManager.init options) st3 = (Raise e, st').
Proof.
  intros Hrun Hexc. unfold main, try_finally in Hrun.
  match type of Hrun with
  | (let (_, _) := ?body st in _) = _ =>
      destruct (body st) as [rb sb] eqn:Eb
  end.
  destruct (BrowserManager.close w (BrowserManager.init options) sb)
    as [[u|e'] s4] eqn:Ec.
  - injection Hrun as -> <-. exfalso.
    unfold try_except in Eb.
    match type of Eb with
    | (let (_, _) := ?body st in _) = _ =>
        destruct (body st) as [[a|e0] s0]
    end.
    + discriminate.
    + destruct (isinstance_Exception e0) eqn:E0.
      * unfold log in Eb. discriminate.
      * injection Eb as -> _. congruence.
  - injection Hrun as -> <-. now exists sb.
Qed.

Lemma main_raises_only_from_close_witness :
  let w := Sample.world
             (fun o => match o with
                       | BrowserClose => Some (Exc Exception (py "closed"))
                       | WaitForSelector _ _ =>
                           Some (Exc TimeoutError (py "Timeout exceeded."))
                       | _ => None
                       end)
             Sample.no_file None 20 None Sample.page in
  let options := Sample.options (Some 2) (py "google") in
  let e := Exc Exception (py "closed") in
  exists st' st3,
    main w options (py "openai gpt") initial = (Raise e, st') /\
    isinstance_Exception e = true /\
    BrowserManager.close w (BrowserManager.init options) st3 = (Raise e, st').
Proof.
  intros w options e.
  assert (Hrun : main w options (py "openai gpt") initial
                 = (Raise e, snd (main w options (py "openai gpt") initial)))
    by (vm_compute; reflexivity).
  assert (Hexc : isinstance_Exception e = true) by reflexivity.
  destruct (main_raises_only_from_close w options _ _ _ _ Hrun Hexc)
    as (st3 & Hclose).
  exists (snd (main w options (py "openai gpt") initial)), st3.
  split; [exact Hrun|]. split; [exact Hexc | exact Hclose].
Defined.



(** X22.  [_wait_for_page_load] does not propagate an [Exception] of its
    wait: when it raises, the error is either an error of the wait that is
    no [Exception], or an error of the snapshot taken after the warning. *)
Theorem wait_for_page_load_raises (w : World) (self : BaseEngine.t)
    (st st' : State) (e : exn) :
  let wait :=
    WaitForSelector
      (SearchEngineSelectors.result_container
         (SearchEngineConfig.selectors (BaseEngine.config self))) 15000 in
  BaseEngine._wait_for_page_load w self st = (Raise e, st') ->
  (w_raises w (trace st) wait = Some e /\ isinstance_Exception e = false) \/
  (exists e0,
     w_raises w (trace st) wait = Some e0 /\
     isinstance_Exception e0 = true /\
     w_raises w (trace st ++ [wait; Log WARNING LogResultWaitTimeout])
              (Screenshot (py "google-debug.png") false) = Some e).
Proof.
  intros wait. unfold BaseEngine._wait_for_page_load, try_except.
  fold wait. unfold call at 1.
  destruct (w_raises w (trace st) wait) as [e0|] eqn:Ew; [|discriminate].
  destruct (isinstance_Exception e0) eqn:E0.
  - unfold bind, log, call. cbn [record trace].
    rewrite <- app_assoc. cbn [app].
    destruct (w_raises w _ (Screenshot _ _)) as [e1|] eqn:Es; [|discriminate].
    intros H. injection H as <- _. right. now exists e0.
  - intros H. injection H as <- _. now left.
Qed.

Lemma wait_for_page_load_raises_witness :
  let w := Sample.world
             (fun o => match o with
                       | WaitForSelector _ _ =>
                           Some (Exc TimeoutError (py "Timeout exceeded."))
                       | Screenshot _ _ => Some (Exc OSError (py "read-only"))
                       | _ => None
                       end)
             Sample.no_file None 20 None Sample.page in
  let self := GoogleEngine.init (Sample.options (Some 2) (py "google")) in
  fst (BaseEngine._wait_for_page_load w self initial)
    = Raise (Exc OSError (py "read-only")) /\
  exists e0,
    isinstance_Exception e0 = true /\
    w_raises w (trace initial)
      (WaitForSelector (py "div[data-sokoban-container]") 15000) = Some e0.
Proof.
  intros w self.
  assert (Hrun : BaseEngine._wait_for_page_load w self initial
                 = (Raise (Exc OSError (py "read-only")),
                    snd (BaseEngine._wait_for_page_load w self initial)))
    by (vm_compute; reflexivity).
  split; [now rewrite Hrun|].
  destruct (wait_for_page_load_raises w self _ _ _ Hrun)
    as [[_ Hf]|(e0 & Hw & He & _)]; [discriminate Hf|].
  exists e0. split; [exact He | exact Hw].
Defined.
